(** * last30days-skill: the multi-source search orchestration core

    A shallow embedding of the Python modules

      - [scripts/lib/date_detect.py]   (date signal extractor, range filter)
      - [scripts/lib/mcp_client.py]    (JSON-RPC protocol client)
      - [scripts/lib/claude_mcp.py]    (host-environment MCP wrapper)
      - [scripts/lib/hybrid_search.py] (fan-out orchestrator, date post-processing)
      - [scripts/lib/openai_reddit.py] and [scripts/lib/searxng.py]
        (provider response normalizers)

    Python values are modelled by [pyval]; a Python [str] is a [string] of
    ASCII characters; a call that can raise returns a [result]; the clock, the
    process environment and the pipes are passed explicitly. *)

From stdpp Require Import gmap strings list fin_maps pretty.
From Stdlib Require Import ZArith QArith Ascii Lia Lqa.

Set Warnings "-register-all".
Local Open Scope Z_scope.

(** ** Python values *)

(** A Python [float]: the comparisons of the code are exact on the rationals
    that the finite doubles denote. *)
Inductive pyfloat :=
  | FNaN
  | FInf (negative : bool)
  | FFin (q : Q).

(** What [json.loads] produces and what item dictionaries hold.  A [dict] is
    an association list, looked up from the left. *)
Inductive pyval :=
  | PNone
  | PBool (b : bool)
  | PInt (z : Z)
  | PFloat (f : pyfloat)
  | PStr (s : string)
  | PList (l : list pyval)
  | PDict (d : list (string * pyval)).

(** ** Python exceptions and results *)

(** The [RuntimeError]s raised by the protocol client, by message. *)
Inductive runtime_error :=
  | StartFailed       (* "Failed to start MCP server: ..." *)
  | SendFailed        (* "Failed to send request to MCP server: ..." *)
  | RequestTimeout    (* "Request timeout after {timeout}s" *)
  | ProcessExited (stderr : string)  (* "MCP server process exited: ..." *)
  | UnexpectedEOF     (* "Unexpected EOF from MCP server" *)
  | McpError (message code : pyval)  (* "MCP error: {message} (code: {code})" *)
  | InvalidResponse.  (* "Invalid MCP response: missing 'result' field" *)

(** Every constructor is an instance of Python's [Exception], so that
    [except Exception] catches each of them. *)
Inductive exn :=
  | TypeError
  | ValueError
  | OverflowError
  | AttributeError
  | KeyError
  | TimeoutError
  | BrokenPipeError
  | TimeoutExpired    (* subprocess.TimeoutExpired *)
  | NotImplementedError
  | RuntimeError (r : runtime_error).

Inductive result (A : Type) :=
  | Ok (a : A)
  | Raise (e : exn).
Arguments Ok {A} a.
Arguments Raise {A} e.

Definition bind {A B} (r : result A) (k : A -> result B) : result B :=
  match r with
  | Ok a => k a
  | Raise e => Raise e
  end.

Notation "'do' x <- c ; k" := (bind c (fun x => k))
  (at level 10, x name, c at level 100, k at level 200).
Notation "'do' ' pat <- c ; k" := (bind c (fun x => match x with pat => k end))
  (at level 10, pat pattern, c at level 100, k at level 200).

Definition is_ok {A} (r : result A) : bool :=
  match r with Ok _ => true | Raise _ => false end.

(** ** Characters and strings *)

Module Str.

Definition code (c : ascii) : nat := nat_of_ascii c.

Definition is_digit (c : ascii) : bool :=
  (48 <=? code c)%nat && (code c <=? 57)%nat.

Definition is_upper (c : ascii) : bool :=
  (65 <=? code c)%nat && (code c <=? 90)%nat.

Definition is_lower (c : ascii) : bool :=
  (97 <=? code c)%nat && (code c <=? 122)%nat.

(** [\s] and [str.isspace] on ASCII: tab, newline, vertical tab, form feed,
    carriage return, the four separators 28..31 and the space. *)
Definition is_space (c : ascii) : bool :=
  ((9 <=? code c)%nat && (code c <=? 13)%nat)
  || ((28 <=? code c)%nat && (code c <=? 32)%nat).

(** [\w] on ASCII. *)
Definition is_word (c : ascii) : bool :=
  is_digit c || is_upper c || is_lower c || (code c =? 95)%nat.

Definition lower_char (c : ascii) : ascii :=
  if is_upper c then ascii_of_nat (code c + 32) else c.

Fixpoint lower (s : string) : string :=
  match s with
  | EmptyString => EmptyString
  | String c s' => String (lower_char c) (lower s')
  end.

Fixpoint all (p : ascii -> bool) (s : string) : bool :=
  match s with
  | EmptyString => true
  | String c s' => p c && all p s'
  end.

Fixpoint rev_onto (s acc : string) : string :=
  match s with
  | EmptyString => acc
  | String c s' => rev_onto s' (String c acc)
  end.

Definition rev (s : string) : string := rev_onto s EmptyString.

Fixpoint drop_while (p : ascii -> bool) (s : string) : string :=
  match s with
  | EmptyString => EmptyString
  | String c s' => if p c then drop_while p s' else s
  end.

(** [s.strip()] *)
Definition strip (s : string) : string :=
  rev (drop_while is_space (rev (drop_while is_space s))).

(** [s.lstrip(chars)] *)
Definition lstrip_chars (chars : string) (s : string) : string :=
  drop_while (fun c => bool_decide (is_Some (String.index 0 (String c EmptyString) chars))) s.

Fixpoint is_prefix (p s : string) : bool :=
  match p, s with
  | EmptyString, _ => true
  | String a p', String b s' => Ascii.eqb a b && is_prefix p' s'
  | String _ _, EmptyString => false
  end.

(** [needle in s] *)
Fixpoint contains (needle s : string) : bool :=
  is_prefix needle s ||
  match s with
  | EmptyString => false
  | String _ s' => contains needle s'
  end.

(** [s[:n]] *)
Definition take (n : nat) (s : string) : string := String.substring 0 n s.

Definition digit_val (c : ascii) : Z := Z.of_nat (code c) - 48.

(** [int(s)] on a string of decimal digits. *)
Fixpoint int_digits_from (acc : Z) (s : string) : Z :=
  match s with
  | EmptyString => acc
  | String c s' => int_digits_from (10 * acc + digit_val c) s'
  end.

Definition int_digits (s : string) : Z := int_digits_from 0 s.

Definition digit_char (d : Z) : ascii := ascii_of_nat (Z.to_nat (48 + d)).

(** The decimal digits of [z >= 0], padded with zeros to [w] characters,
    as [%02d] and [%04d] print them. *)
Fixpoint pad_digits (w : nat) (z : Z) (acc : string) : string :=
  match w with
  | O => acc
  | S w' => pad_digits w' (z / 10) (String (digit_char (z mod 10)) acc)
  end.

(** [s.zfill(2)] for a string without sign. *)
Definition zfill2 (s : string) : string :=
  match s with
  | String c EmptyString => String "0" (String c EmptyString)
  | EmptyString => "00"
  | _ => s
  end.

End Str.

(** Truthiness, [bool(v)]. *)
Definition truthy (v : pyval) : bool :=
  match v with
  | PNone => false
  | PBool b => b
  | PInt z => negb (z =? 0)
  | PFloat FNaN => true
  | PFloat (FInf _) => true
  | PFloat (FFin q) => negb (Qeq_bool q 0)
  | PStr s => negb (String.eqb s "")
  | PList l => match l with [] => false | _ => true end
  | PDict d => match d with [] => false | _ => true end
  end.

(** [d.get(k)] on an association list. *)
Fixpoint dict_lookup (k : string) (d : list (string * pyval)) : option pyval :=
  match d with
  | [] => None
  | (k', v) :: d' => if String.eqb k k' then Some v else dict_lookup k d'
  end.

(** [d.get(k, dflt)] *)
Definition dict_get (d : list (string * pyval)) (k : string) (dflt : pyval) : pyval :=
  default dflt (dict_lookup k d).

(** [x or y] *)
Definition py_or (x y : pyval) : pyval := if truthy x then x else y.

(** [key in v] for a string [key]: key membership on a dict, substring on a
    string, element equality on a list, [TypeError] on the rest. *)
Definition str_in (key : string) (v : pyval) : result bool :=
  match v with
  | PDict d => Ok (bool_decide (is_Some (dict_lookup key d)))
  | PStr s => Ok (Str.contains key s)
  | PList l => Ok (existsb (fun x => match x with PStr s => String.eqb key s | _ => false end) l)
  | _ => Raise TypeError
  end.

(** ** Regular expressions of the code

    The patterns of [date_detect.py] are sequences of single-character classes
    and maximal runs; none of them needs backtracking, so that [re.search] is
    a scan for the leftmost position where the pattern matches. *)

Module Re.

Inductive cclass :=
  | Lit (c : ascii)       (* the character itself *)
  | LitI (c : ascii)      (* a lower-case letter, under re.IGNORECASE *)
  | Digit                 (* \d *)
  | OneOf (cs : string).  (* [...] *)

Definition cmatch (k : cclass) (c : ascii) : bool :=
  match k with
  | Lit a => Ascii.eqb a c
  | LitI a => Ascii.eqb a (Str.lower_char c)
  | Digit => Str.is_digit c
  | OneOf cs => Str.contains (String c EmptyString) cs
  end.

(** The pattern matches a prefix of [s]: the matched text and the rest. *)
Fixpoint match_here (p : list cclass) (s : string) : option (string * string) :=
  match p with
  | [] => Some (EmptyString, s)
  | k :: p' =>
      match s with
      | EmptyString => None
      | String c s' =>
          if cmatch k c then
            match match_here p' s' with
            | Some (m, r) => Some (String c m, r)
            | None => None
            end
          else None
      end
  end.

(** [re.search]: the text before the leftmost match, the match, the rest. *)
Fixpoint search (p : list cclass) (s : string) : option (string * string * string) :=
  match match_here p s with
  | Some (m, r) => Some (EmptyString, m, r)
  | None =>
      match s with
      | EmptyString => None
      | String c s' =>
          match search p s' with
          | Some (pre, m, r) => Some (String c pre, m, r)
          | None => None
          end
      end
  end.

Fixpoint lits (s : string) : list cclass :=
  match s with
  | EmptyString => []
  | String c s' => Lit c :: lits s'
  end.

Fixpoint litsI (s : string) : list cclass :=
  match s with
  | EmptyString => []
  | String c s' => LitI c :: litsI s'
  end.

(** The maximal prefix of characters in a class, and the rest: [\d+], [\s+]. *)
Fixpoint span (p : ascii -> bool) (s : string) : string * string :=
  match s with
  | EmptyString => (EmptyString, EmptyString)
  | String c s' =>
      if p c then let '(m, r) := span p s' in (String c m, r)
      else (EmptyString, s)
  end.

(** A run of at least one character of the class. *)
Definition span1 (p : ascii -> bool) (s : string) : option (string * string) :=
  match span p s with
  | (EmptyString, _) => None
  | (m, r) => Some (m, r)
  end.

Definition starts_with_word (s : string) : bool :=
  match s with
  | EmptyString => false
  | String c _ => Str.is_word c
  end.

(** [re.search(r'\bw\b', s, re.IGNORECASE)] for a lower-case word [w];
    [prev] tells whether the character before [s] is a word character. *)
Fixpoint search_word_from (w : string) (prev : bool) (s : string) : bool :=
  (negb prev &&
   match match_here (litsI w) s with
   | Some (_, r) => negb (starts_with_word r)
   | None => false
   end)
  || match s with
     | EmptyString => false
     | String c s' => search_word_from w (Str.is_word c) s'
     end.

Definition search_word (w s : string) : bool := search_word_from w false s.

(** The text [m] has the shape of the pattern: one character per class. *)
Fixpoint shape (p : list cclass) (m : string) : Prop :=
  match p, m with
  | [], EmptyString => True
  | k :: p', String c m' => cmatch k c = true /\ shape p' m'
  | _, _ => False
  end.

(** The first position, from the left, where [f] succeeds. *)
Fixpoint first_match {A} (f : string -> option A) (s : string) : option A :=
  match f s with
  | Some a => Some a
  | None =>
      match s with
      | EmptyString => None
      | String _ s' => first_match f s'
      end
  end.

End Re.

(** ** The calendar of Python's [datetime] *)

Module Datetime.

Record datetime := mk_datetime {
  year : Z; month : Z; day : Z;
  hour : Z; minute : Z; second : Z; microsecond : Z
}.

Definition midnight (y m d : Z) : datetime := mk_datetime y m d 0 0 0 0.

Definition is_leap (y : Z) : bool :=
  (y mod 4 =? 0) && (negb (y mod 100 =? 0) || (y mod 400 =? 0)).

Definition days_in_month (y m : Z) : Z :=
  if m =? 2 then (if is_leap y then 29 else 28)
  else if (m =? 4) || (m =? 6) || (m =? 9) || (m =? 11) then 30
  else 31.

Definition days_before_year (y : Z) : Z :=
  (y - 1) * 365 + (y - 1) / 4 - (y - 1) / 100 + (y - 1) / 400.

Definition days_before_month_table (m : Z) : Z :=
  nth (Z.to_nat m) [0; 0; 31; 59; 90; 120; 151; 181; 212; 243; 273; 304; 334] 0.

Definition days_before_month (y m : Z) : Z :=
  days_before_month_table m + (if (2 <? m) && is_leap y then 1 else 0).

(** [date.toordinal]: 0001-01-01 is day 1. *)
Definition ymd2ord (y m d : Z) : Z :=
  days_before_year y + days_before_month y m + d.

(** [date.fromordinal], by the 400-, 100- and 4-year cycles. *)
Definition ord2ymd (n0 : Z) : Z * Z * Z :=
  let n := n0 - 1 in
  let n400 := n / 146097 in let n := n mod 146097 in
  let n100 := n / 36524 in let n := n mod 36524 in
  let n4 := n / 1461 in let n := n mod 1461 in
  let n1 := n / 365 in let n := n mod 365 in
  let y := n400 * 400 + 1 + n100 * 100 + n4 * 4 + n1 in
  if (n1 =? 4) || (n100 =? 4) then (y - 1, 12, 31)
  else
    let leapyear := (n1 =? 3) && (negb (n4 =? 24) || (n100 =? 3)) in
    let m := Z.shiftr (n + 50) 5 in
    let preceding :=
      days_before_month_table m + (if (2 <? m) && leapyear then 1 else 0) in
    if n <? preceding then
      let m' := m - 1 in
      let dim := if (m' =? 2) && leapyear then 29 else days_in_month 1 m' in
      (y, m', n - (preceding - dim) + 1)
    else (y, m, n - preceding + 1).

Definition max_ordinal : Z := 3652059.  (* 9999-12-31 *)

(** [dt - timedelta(days=n)] for [n >= 0]: [OverflowError] when the days
    exceed what a [timedelta] holds or the date leaves year 1..9999. *)
Definition minus_days (dt : datetime) (n : Z) : result datetime :=
  if 999999999 <? n then Raise OverflowError
  else
    let o := ymd2ord (year dt) (month dt) (day dt) - n in
    if (0 <? o) && (o <=? max_ordinal) then
      let '(y, m, d) := ord2ymd o in
      Ok (mk_datetime y m d (hour dt) (minute dt) (second dt) (microsecond dt))
    else Raise OverflowError.

(** [dt.strftime('%Y-%m-%d')], the year printed on four digits. *)
Definition strftime_ymd (dt : datetime) : string :=
  Str.pad_digits 4 (year dt) ("-" +:+ Str.pad_digits 2 (month dt)
    ("-" +:+ Str.pad_digits 2 (day dt) "")).

(** The order of [datetime] objects: that of the tuples
    (year, month, day, hour, minute, second, microsecond). *)
Definition to_list (dt : datetime) : list Z :=
  [year dt; month dt; day dt; hour dt; minute dt; second dt; microsecond dt].

Fixpoint lex_le (a b : list Z) : bool :=
  match a, b with
  | x :: a', y :: b' => (x <? y) || ((x =? y) && lex_le a' b')
  | [], _ => true
  | _ :: _, [] => false
  end.

Definition le (a b : datetime) : bool := lex_le (to_list a) (to_list b).

(** The month alternatives of [%m]: [1[0-2]|0[1-9]|[1-9]]. *)
Definition match_month (s : string) : option (string * string) :=
  match s with
  | String a (String b r) =>
      if Ascii.eqb a "1" && Str.contains (String b EmptyString) "012"
      then Some (String a (String b EmptyString), r)
      else if Ascii.eqb a "0" && Str.contains (String b EmptyString) "123456789"
      then Some (String a (String b EmptyString), r)
      else if Str.contains (String a EmptyString) "123456789"
      then Some (String a EmptyString, String b r)
      else None
  | String a EmptyString =>
      if Str.contains (String a EmptyString) "123456789"
      then Some (String a EmptyString, EmptyString)
      else None
  | EmptyString => None
  end.

(** The day alternatives of [%d]: [3[01]|[12]\d|0[1-9]|[1-9]| [1-9]];
    the value of the group, and the rest. *)
Definition match_day (s : string) : option (Z * string) :=
  match s with
  | String a (String b r) =>
      if Ascii.eqb a "3" && Str.contains (String b EmptyString) "01"
      then Some (Str.int_digits (String a (String b EmptyString)), r)
      else if Str.contains (String a EmptyString) "12" && Str.is_digit b
      then Some (Str.int_digits (String a (String b EmptyString)), r)
      else if Ascii.eqb a "0" && Str.contains (String b EmptyString) "123456789"
      then Some (Str.int_digits (String a (String b EmptyString)), r)
      else if Str.contains (String a EmptyString) "123456789"
      then Some (Str.digit_val a, String b r)
      else if Ascii.eqb a " " && Str.contains (String b EmptyString) "123456789"
      then Some (Str.digit_val b, r)
      else None
  | String a EmptyString =>
      if Str.contains (String a EmptyString) "123456789"
      then Some (Str.digit_val a, EmptyString)
      else None
  | EmptyString => None
  end.

(** [datetime.strptime(s, '%Y-%m-%d')]: the format's regular expression
    must match the whole of [s], and the day must exist in the month. *)
Definition strptime_ymd (s : string) : result datetime :=
  match Re.match_here [Re.Digit; Re.Digit; Re.Digit; Re.Digit; Re.Lit "-"] s with
  | Some (ys, r1) =>
      match match_month r1 with
      | Some (ms, String sep r2) =>
          if Ascii.eqb sep "-" then
            match match_day r2 with
            | Some (d, EmptyString) =>
                let y := Str.int_digits (Str.take 4 ys) in
                let m := Str.int_digits ms in
                if (1 <=? y) && (d <=? days_in_month y m)
                then Ok (midnight y m d)
                else Raise ValueError
            | _ => Raise ValueError
            end
          else Raise ValueError
      | _ => Raise ValueError
      end
  | None => Raise ValueError
  end.

End Datetime.

(** ** [date_detect.py] *)

Module DateDetect.
Import Datetime.

Definition group (start len : nat) (m : string) : string :=
  String.substring start len m.

Definition digits (n : nat) : list Re.cclass := replicate n Re.Digit.

(** [r'/(\d{4})/(\d{2})/(\d{2})/'] *)
Definition url_slash_pattern : list Re.cclass :=
  Re.Lit "/" :: digits 4 ++ Re.Lit "/" :: digits 2 ++ Re.Lit "/" :: digits 2
    ++ [Re.Lit "/"].

(** [r'/(\d{4})-(\d{2})-(\d{2})/'] *)
Definition url_dash_pattern : list Re.cclass :=
  Re.Lit "/" :: digits 4 ++ Re.Lit "-" :: digits 2 ++ Re.Lit "-" :: digits 2
    ++ [Re.Lit "/"].

(** [r'/(\d{4})(\d{2})(\d{2})'] *)
Definition url_bare_pattern : list Re.cclass := Re.Lit "/" :: digits 8.

Definition ymd (y m d : string) : string := y +:+ "-" +:+ m +:+ "-" +:+ d.

(** The three groups of each URL pattern, by their position in the match. *)
Definition url_patterns : list (list Re.cclass * (string -> string)) :=
  [ (url_slash_pattern, fun m => ymd (group 1 4 m) (group 6 2 m) (group 9 2 m));
    (url_dash_pattern, fun m => ymd (group 1 4 m) (group 6 2 m) (group 9 2 m));
    (url_bare_pattern, fun m => ymd (group 1 4 m) (group 5 2 m) (group 7 2 m)) ].

Fixpoint first_pattern (ps : list (list Re.cclass * (string -> string)))
    (url : string) : option string :=
  match ps with
  | [] => None
  | (p, fmt) :: ps' =>
      match Re.search p url with
      | Some (_, m, _) => Some (fmt m)
      | None => first_pattern ps' url
      end
  end.

(** [re.search] raises [TypeError] on what is not a string. *)
Definition extract_date_from_url (url : pyval) : result (option string) :=
  match url with
  | PStr s => Ok (first_pattern url_patterns s)
  | _ => Raise TypeError
  end.

(** [r'(\d+)\s+days?\s+ago'] under [re.IGNORECASE], at the head of [s]:
    the first group. *)
Definition match_days_ago (s : string) : option string :=
  '(n, r1) ← Re.span1 Str.is_digit s;
  '(_, r2) ← Re.span1 Str.is_space r1;
  '(_, r3) ← Re.match_here (Re.litsI "day") r2;
  let r4 := match r3 with
            | String c r' => if Ascii.eqb (Str.lower_char c) "s" then r' else r3
            | EmptyString => r3
            end in
  '(_, r5) ← Re.span1 Str.is_space r4;
  '(_, _) ← Re.match_here (Re.litsI "ago") r5;
  Some n.

Definition months : list (string * string) :=
  [ ("january", "01"); ("february", "02"); ("march", "03"); ("april", "04");
    ("may", "05"); ("june", "06"); ("july", "07"); ("august", "08");
    ("september", "09"); ("october", "10"); ("november", "11");
    ("december", "12") ].

(** The alternation [(January|...|December)], case-insensitive: the matched
    text and the rest. *)
Fixpoint match_month_name (names : list (string * string)) (s : string)
    : option (string * string) :=
  match names with
  | [] => None
  | (name, _) :: names' =>
      match Re.match_here (Re.litsI name) s with
      | Some mr => Some mr
      | None => match_month_name names' s
      end
  end.

Fixpoint months_get (k : string) (tbl : list (string * string)) (dflt : string)
    : string :=
  match tbl with
  | [] => dflt
  | (name, num) :: tbl' => if String.eqb k name then num else months_get k tbl' dflt
  end.

(** [\d{1,2}] followed by [\s]: two digits when there are two, else one. *)
Definition match_day_digits (s : string) : option (string * string) :=
  match s with
  | String a (String b r) =>
      if Str.is_digit a && Str.is_digit b
      then Some (String a (String b EmptyString), r)
      else if Str.is_digit a then Some (String a EmptyString, String b r)
      else None
  | String a EmptyString =>
      if Str.is_digit a then Some (String a EmptyString, EmptyString) else None
  | EmptyString => None
  end.

(** [r'(\d{1,2})\s+(January|...|December)[,\.]?\s+(\d{4})'] under
    [re.IGNORECASE], at the head of [s]: day, month name and year. *)
Definition match_long_date (s : string) : option (string * string * string) :=
  '(d, r1) ← match_day_digits s;
  '(_, r2) ← Re.span1 Str.is_space r1;
  '(name, r3) ← match_month_name months r2;
  let r4 := match r3 with
            | String c r' => if Str.contains (String c EmptyString) ",." then r' else r3
            | EmptyString => r3
            end in
  '(_, r5) ← Re.span1 Str.is_space r4;
  '(y, _) ← Re.match_here (digits 4) r5;
  Some (d, name, y).

(** [r'(\d{4})[-/](\d{2})[-/](\d{2})'] *)
Definition iso_pattern : list Re.cclass :=
  digits 4 ++ Re.OneOf "-/" :: digits 2 ++ Re.OneOf "-/" :: digits 2.

(** The patterns of [extract_date_from_text], tried in order on a string.
    [now] is the reading of [datetime.now()]; the clock is read on the
    "N days ago" path only. *)
Definition text_patterns (now : datetime) (text : string) : result (option string) :=
  if Re.search_word "today" text then Ok (Some "today")
  else if Re.search_word "yesterday" text then Ok (Some "yesterday")
  else
    match Re.first_match match_days_ago text with
    | Some n =>
        do date <- minus_days now (Str.int_digits n);
        Ok (Some (strftime_ymd date))
    | None =>
        match Re.first_match match_long_date text with
        | Some (d, month_name, y) =>
            let month := months_get (Str.lower month_name) months "01" in
            Ok (Some (ymd y month (Str.zfill2 d)))
        | None =>
            match Re.search iso_pattern text with
            | Some (_, m, _) => Ok (Some (ymd (group 0 4 m) (group 5 2 m) (group 8 2 m)))
            | None => Ok None
            end
        end
    end.

(** [if not text: return None]; then the patterns, [TypeError] on a truthy
    value that is not a string. *)
Definition extract_date_from_text (now : datetime) (text : pyval)
    : result (option string) :=
  if negb (truthy text) then Ok None
  else
    match text with
    | PStr s => text_patterns now s
    | _ => Raise TypeError
    end.

(** [if date:] on an optional string. *)
Definition nonempty (o : option string) : bool :=
  match o with
  | Some s => negb (String.eqb s "")
  | None => false
  end.

Definition extract_date_signals (now : datetime) (url snippet title : pyval)
    : result (option string * string) :=
  do date <- extract_date_from_url url;
  if nonempty date then Ok (date, "high")
  else
    do date <- extract_date_from_text now snippet;
    if nonempty date then Ok (date, "med")
    else
      do date <- extract_date_from_text now title;
      if nonempty date then Ok (date, "low")
      else Ok (None, "none").

(** The [try] block of [is_date_in_range]; [strptime] raises [TypeError] on
    what is not a string. *)
Definition in_range_checked (now : datetime) (date_str : pyval)
    (from_date to_date : string) : result bool :=
  do extracted <-
    match date_str with
    | PStr s =>
        if String.eqb s "today" then Ok now
        else if String.eqb s "yesterday" then minus_days now 1
        else strptime_ymd s
    | _ => Raise TypeError
    end;
  do start <- strptime_ymd from_date;
  do stop <- strptime_ymd to_date;
  Ok (le start extracted && le extracted stop).

Definition is_none_literal (v : pyval) : bool :=
  match v with
  | PStr s => String.eqb s "none"
  | _ => false
  end.

(** [except (ValueError, TypeError): return True]; any other exception
    leaves the function. *)
Definition is_date_in_range (now : datetime) (date_str : pyval)
    (from_date to_date : string) : result bool :=
  if negb (truthy date_str) || is_none_literal date_str then Ok true
  else
    match in_range_checked now date_str from_date to_date with
    | Ok b => Ok b
    | Raise ValueError | Raise TypeError => Ok true
    | Raise e => Raise e
    end.

End DateDetect.

(** ** [mcp_client.py] *)

Module McpClient.

(** A [subprocess.Popen] object with its three pipes.  [stdout_lines] is
    what [stdout.readline()] returns, call after call, before end of file;
    [lingers] tells that the process does not exit by itself within the
    grace period of [wait]. *)
Record popen := mk_popen {
  stdin_closed : bool;
  stdin_broken : bool;
  stdin_written : list string;
  stdout_lines : list string;
  stderr_text : string;
  returncode : option Z;
  exit_code : Z;
  lingers : bool;
  killed : bool
}.

Definition set_stdin_closed (p : popen) : popen :=
  mk_popen true (stdin_broken p) (stdin_written p) (stdout_lines p)
    (stderr_text p) (returncode p) (exit_code p) (lingers p) (killed p).

Definition set_stdin_written (l : list string) (p : popen) : popen :=
  mk_popen (stdin_closed p) (stdin_broken p) l (stdout_lines p)
    (stderr_text p) (returncode p) (exit_code p) (lingers p) (killed p).

Definition set_stdout_lines (l : list string) (p : popen) : popen :=
  mk_popen (stdin_closed p) (stdin_broken p) (stdin_written p) l
    (stderr_text p) (returncode p) (exit_code p) (lingers p) (killed p).

Definition set_returncode (r : option Z) (p : popen) : popen :=
  mk_popen (stdin_closed p) (stdin_broken p) (stdin_written p) (stdout_lines p)
    (stderr_text p) r (exit_code p) (lingers p) (killed p).

Definition set_killed (p : popen) : popen :=
  mk_popen (stdin_closed p) (stdin_broken p) (stdin_written p) (stdout_lines p)
    (stderr_text p) (returncode p) (exit_code p) (lingers p) true.

(** [p.stdin.close()]: closing a closed file does nothing; closing flushes,
    which raises on a broken pipe; the file is closed in both cases. *)
Definition stdin_close (p : popen) : popen * result unit :=
  if stdin_closed p then (p, Ok tt)
  else if stdin_broken p then (set_stdin_closed p, Raise BrokenPipeError)
  else (set_stdin_closed p, Ok tt).

(** [p.stdin.write(s); p.stdin.flush()] *)
Definition stdin_write (s : string) (p : popen) : popen * result unit :=
  if stdin_closed p then (p, Raise ValueError)
  else if stdin_broken p then (p, Raise BrokenPipeError)
  else (set_stdin_written (stdin_written p ++ [s]) p, Ok tt).

(** [p.wait(timeout=...)] *)
Definition wait (p : popen) : popen * result Z :=
  match returncode p with
  | Some rc => (p, Ok rc)
  | None =>
      if lingers p && negb (killed p) then (p, Raise TimeoutExpired)
      else (set_returncode (Some (exit_code p)) p, Ok (exit_code p))
  end.

(** [p.kill()]: nothing to do for a process that was waited for. *)
Definition kill (p : popen) : popen :=
  match returncode p with
  | Some _ => p
  | None => set_killed p
  end.

Record client := mk_client {
  command : option (list string);
  timeout : Z;
  request_id : Z;
  process : option popen
}.

Definition set_process (o : option popen) (c : client) : client :=
  mk_client (command c) (timeout c) (request_id c) o.

(** The ambient streams of the current process and the clock: [clock k] is
    what the [k]-th call of [time.time()] returns. *)
Record world := mk_world {
  sys_stdin : list string;
  sys_stdout : list string;
  clock : nat -> Q;
  ticks : nat
}.

(** [__init__]; [spawn] is [subprocess.Popen] on the command. *)
Definition init (spawn : list string -> result popen)
    (cmd : option (list string)) (tmo : Z) : result client :=
  match cmd with
  | Some (a :: args) =>
      match spawn (a :: args) with
      | Ok p => Ok (mk_client cmd tmo 0 (Some p))
      | Raise _ => Raise (RuntimeError StartFailed)
      end
  | _ => Ok (mk_client cmd tmo 0 None)
  end.

(** [response[key]] *)
Definition subscript (response : pyval) (key : string) : result pyval :=
  match response with
  | PDict d =>
      match dict_lookup key d with
      | Some v => Ok v
      | None => Raise KeyError
      end
  | _ => Raise TypeError
  end.

Definition newline : string := String (ascii_of_nat 10) EmptyString.

(** [sep.join(l)] *)
Fixpoint join (sep : string) (l : list string) : string :=
  match l with
  | [] => EmptyString
  | [x] => x
  | x :: l' => x +:+ sep +:+ join sep l'
  end.

(** ["method" in response and "result" not in response] *)
Definition is_notification (response : pyval) : result bool :=
  do m <- str_in "method" response;
  if (m : bool) then (do r <- str_in "result" response; Ok (negb r)) else Ok false.

(** ["result" in response or "error" in response] *)
Definition is_answer (response : pyval) : result bool :=
  do r <- str_in "result" response;
  if (r : bool) then Ok true else str_in "error" response.

(** What the body of the reading loop decides for one line: read on, with
    the buffered lines, or leave the loop with the response. *)
Inductive step :=
  | Continue (response_lines : list string)
  | Break (response : pyval).

Section Protocol.
Variable json_loads : string -> option pyval.
Variable json_dumps : pyval -> string.

(** The two nested [try] blocks, for a stripped, non-empty line. *)
Definition handle_line (line : string) (response_lines : list string)
    : result step :=
  match json_loads line with
  | Some response =>
      do n <- is_notification response;
      if n then Ok (Continue response_lines)
      else
        do a <- is_answer response;
        if a then Ok (Break response) else Ok (Continue response_lines)
  | None =>
      let response_lines := response_lines ++ [line] in
      match json_loads (join newline response_lines) with
      | Some response =>
          do n <- is_notification response;
          if n then Ok (Continue [])
          else
            do a <- is_answer response;
            if a then Ok (Break response) else Ok (Continue response_lines)
      | None => Ok (Continue response_lines)
      end
  end.

(** The [while True] loop: every turn reads the clock, then one line.
    [eof] is the error for the end of the stream.  Returns the lines left
    and the number of clock readings. *)
Fixpoint read_loop (clk : nat -> Q) (tmo : Z) (start_time : Q)
    (eof : runtime_error) (lines : list string) (tk : nat)
    (response_lines : list string) : list string * nat * result pyval :=
  if negb (Qle_bool (clk tk - start_time) (inject_Z tmo))
  then (lines, S tk, Raise (RuntimeError RequestTimeout))
  else
    match lines with
    | [] => ([], S tk, Raise (RuntimeError eof))
    | line :: rest =>
        if String.eqb line "" then (rest, S tk, Raise (RuntimeError eof))
        else
          let line := Str.strip line in
          if String.eqb line ""
          then read_loop clk tmo start_time eof rest (S tk) response_lines
          else
            match handle_line line response_lines with
            | Raise e => (rest, S tk, Raise e)
            | Ok (Break response) => (rest, S tk, Ok response)
            | Ok (Continue response_lines') =>
                read_loop clk tmo start_time eof rest (S tk) response_lines'
            end
    end.

(** After the loop: the error member, else the result member. *)
Definition unwrap_response (response : pyval) : result pyval :=
  do e <- str_in "error" response;
  if e then
    do error <- subscript response "error";
    match error with
    | PDict d =>
        Raise (RuntimeError (McpError (dict_get d "message" (PStr "Unknown error"))
                                      (dict_get d "code" (PStr "Unknown"))))
    | _ => Raise AttributeError
    end
  else
    do r <- str_in "result" response;
    if negb r then Raise (RuntimeError InvalidResponse)
    else subscript response "result".

Definition eof_error (c : client) : runtime_error :=
  match process c with
  | Some p =>
      match returncode p with
      | Some _ => ProcessExited (stderr_text p)
      | None => UnexpectedEOF
      end
  | None => UnexpectedEOF
  end.

Definition _generate_request_id (c : client) : client * Z :=
  let id := request_id c + 1 in
  (mk_client (command c) (timeout c) id (process c), id).

Definition _send_request (w : world) (c : client) (method : string)
    (params : pyval) : world * client * result pyval :=
  let '(c, id) := _generate_request_id c in
  let request := PDict [("jsonrpc", PStr "2.0"); ("id", PInt id);
                        ("method", PStr method); ("params", params)] in
  let request_json := json_dumps request +:+ newline in
  let '(w, c, sent) :=
    match process c with
    | Some p =>
        match stdin_write request_json p with
        | (p', Ok _) => (w, set_process (Some p') c, Ok tt)
        | (p', Raise BrokenPipeError) =>
            (w, set_process (Some p') c, Raise (RuntimeError SendFailed))
        | (p', Raise e) => (w, set_process (Some p') c, Raise e)
        end
    | None =>
        (mk_world (sys_stdin w) (sys_stdout w ++ [request_json]) (clock w) (ticks w),
         c, Ok tt)
    end in
  match sent with
  | Raise e => (w, c, Raise e)
  | Ok _ =>
      let start_time := clock w (ticks w) in
      let lines := match process c with
                   | Some p => stdout_lines p
                   | None => sys_stdin w
                   end in
      let '(rest, tk, r) :=
        read_loop (clock w) (timeout c) start_time (eof_error c) lines
          (S (ticks w)) [] in
      let c' := match process c with
                | Some p => set_process (Some (set_stdout_lines rest p)) c
                | None => c
                end in
      let w' := match process c with
                | Some _ => mk_world (sys_stdin w) (sys_stdout w) (clock w) tk
                | None => mk_world rest (sys_stdout w) (clock w) tk
                end in
      (w', c', do response <- r; unwrap_response response)
  end.

Definition call_tool (w : world) (c : client) (tool_name : string)
    (arguments : pyval) : world * client * result pyval :=
  _send_request w c "tools/call"
    (PDict [("name", PStr tool_name); ("arguments", arguments)]).

End Protocol.

(** [close]: the client afterwards, the [Popen] object that was shut down
    (in its final state), and whether an exception leaves the method. *)
Definition close (c : client) : client * option popen * result unit :=
  match process c with
  | Some p =>
      (* try: self.process.stdin.close()  except Exception: pass *)
      let '(p, _) := stdin_close p in
      (* try: self.process.wait(timeout=5)
         except subprocess.TimeoutExpired: self.process.kill() *)
      match wait p with
      | (p, Ok _) => (set_process None c, Some p, Ok tt)
      | (p, Raise TimeoutExpired) => (set_process None c, Some (kill p), Ok tt)
      | (p, Raise e) => (set_process (Some p) c, Some p, Raise e)
      end
  | None => (c, None, Ok tt)
  end.

End McpClient.

(** An item dictionary built by an adapter. *)
Abbreviation item := (gmap string pyval).

Definition opt_str (o : option string) : pyval :=
  match o with
  | Some s => PStr s
  | None => PNone
  end.

(** ** [claude_mcp.py] *)

Module ClaudeMcp.

(** [os.environ] *)
Abbreviation environ := (gmap string string).

Definition env_set (o : option string) : bool :=
  match o with
  | Some s => negb (String.eqb s "")
  | None => false
  end.

Definition is_claude_environment (env : environ) : bool :=
  if env_set (env !! "CLAUDE_CODE") || env_set (env !! "CLAUDE") then true
  else if Str.contains "claude" (Str.lower (default "" (env !! "PATH"))) then true
  else false.

Definition detect_mcp_tools (env : environ) : list string :=
  if is_claude_environment env then
    [ "mcp__searxng-enhanced__search_web";
      "mcp__searxng-enhanced__get_website";
      "mcp__searxng-enhanced__get_current_datetime" ]
  else [].

(** [config.get("USE_CLAUDE_MCP", "").lower()] raises [AttributeError] on a
    value without a [lower] method. *)
Definition should_use_claude_mcp (env : environ) (config : gmap string pyval)
    : result bool :=
  match default (PStr "") (config !! "USE_CLAUDE_MCP") with
  | PStr s =>
      let use_claude_mcp := Str.lower s in
      if String.eqb use_claude_mcp "false" then Ok false
      else if String.eqb use_claude_mcp "true" then Ok (is_claude_environment env)
      else Ok (is_claude_environment env
               && (0 <? length (detect_mcp_tools env))%nat)
  | _ => Raise AttributeError
  end.

Record ClaudeMCPWrapper := mk_wrapper {
  config : gmap string pyval;
  available_tools : list string;
  _available : bool
}.

Definition wrapper_init (env : environ) (cfg : gmap string pyval) : ClaudeMCPWrapper :=
  let tools := detect_mcp_tools env in
  mk_wrapper cfg tools (0 <? length tools)%nat.

(** What [get_mcp_client] returns: the wrapper or the local client. *)
Inductive mcp_client :=
  | Wrapper (w : ClaudeMCPWrapper)
  | Local (c : McpClient.client).

Definition get_mcp_client (env : environ) (cfg : gmap string pyval)
    : result mcp_client :=
  do b <- should_use_claude_mcp env cfg;
  if (b : bool) then Ok (Wrapper (wrapper_init env cfg))
  else Ok (Local (McpClient.mk_client None 120 0 None)).

(** [client.is_available()]: [MCPSearXNGClient] has no such method. *)
Definition is_available (c : mcp_client) : result bool :=
  match c with
  | Wrapper w => Ok (_available w)
  | Local _ => Raise AttributeError
  end.

(** [ClaudeMCPWrapper.search_web] and [get_website] *)
Definition search_web (w : ClaudeMCPWrapper) (query category : string)
    : result pyval := Raise NotImplementedError.

Definition get_website (w : ClaudeMCPWrapper) (url : string)
    : result pyval := Raise NotImplementedError.

End ClaudeMcp.

(** ** [hybrid_search.py] *)

Module HybridSearch.
Import ClaudeMcp.

(** What a search function does besides returning: the methods it invokes
    on the client object and the lines it logs. *)
Inductive event :=
  | Invoked (method : string)
  | Logged (msg : string).

Abbreviation provider_result := (list item * string)%type.

Definition search_reddit_hybrid (env : environ) (topic from_date to_date : string)
    (config : gmap string pyval) (depth : string)
    : list event * result provider_result :=
  match should_use_claude_mcp env config with
  | Raise e => ([], Raise e)
  | Ok false => ([], Ok ([], "none"))
  | Ok true =>
      match get_mcp_client env config with
      | Raise e => ([Logged "Claude MCP search failed"], Ok ([], "none"))
      | Ok mcp_client =>
          match is_available mcp_client with
          | Ok true => ([Invoked "is_available"], Ok ([], "claude_mcp"))
          | Ok false => ([Invoked "is_available"], Ok ([], "none"))
          | Raise e => ([Logged "Claude MCP search failed"], Ok ([], "none"))
          end
      end
  end.

Definition search_x_hybrid (env : environ) (topic from_date to_date : string)
    (config : gmap string pyval) (depth : string)
    : list event * result provider_result :=
  match should_use_claude_mcp env config with
  | Raise e => ([], Raise e)
  | Ok false => ([], Ok ([], "none"))
  | Ok true =>
      match get_mcp_client env config with
      | Raise e => ([Logged "Claude MCP search failed"], Ok ([], "none"))
      | Ok mcp_client =>
          match is_available mcp_client with
          | Ok true => ([Invoked "is_available"], Ok ([], "claude_mcp"))
          | Ok false => ([Invoked "is_available"], Ok ([], "none"))
          | Raise e => ([Logged "Claude MCP search failed"], Ok ([], "none"))
          end
      end
  end.

Definition search_web_hybrid (env : environ) (topic from_date to_date : string)
    (config : gmap string pyval) (depth : string)
    : list event * result provider_result :=
  match should_use_claude_mcp env config with
  | Raise e => ([], Raise e)
  | Ok false => ([], Ok ([], "none"))
  | Ok true =>
      match get_mcp_client env config with
      | Raise e => ([Logged "Claude MCP search failed"], Ok ([], "none"))
      | Ok mcp_client =>
          match is_available mcp_client with
          | Ok true => ([Invoked "is_available"], Ok ([], "claude_mcp"))
          | Ok false => ([Invoked "is_available"], Ok ([], "none"))
          | Raise e => ([Logged "Claude MCP search failed"], Ok ([], "none"))
          end
      end
  end.

(** *** [apply_date_detection]

    The items are dictionaries shared with the caller: a list of references
    into a store, which the loop updates in place. *)

Abbreviation store := (gmap nat item).

Definition deref (h : store) (l : nat) : item := default ∅ (h !! l).

Definition item_get (d : item) (k : string) (dflt : pyval) : pyval :=
  default dflt (d !! k).

(** The loop of [apply_date_detection] from the [i]-th item on;
    [clock (2 * i)] is the clock when the [i]-th date is extracted and
    [clock (2 * i + 1)] when it is compared with the window.  Returns the
    store with the references appended to [filtered_items]. *)
Fixpoint apply_loop (clock : nat -> Datetime.datetime) (from_date to_date : string)
    (i : nat) (h : store) (items : list nat) (filtered_items : list nat)
    : store * result (list nat) :=
  match items with
  | [] => (h, Ok filtered_items)
  | ref :: rest =>
      let it := deref h ref in
      let url := item_get it "url" (PStr "") in
      let title := item_get it "title" (PStr "") in
      let snippet := py_or (item_get it "snippet" (PStr ""))
                       (py_or (item_get it "content" (PStr ""))
                              (item_get it "why_relevant" (PStr ""))) in
      match DateDetect.extract_date_signals (clock (2 * i)%nat) url snippet title with
      | Raise e => (h, Raise e)
      | Ok (date_str, confidence) =>
          let it := <["date_confidence" := PStr confidence]>
                      (<["date" := opt_str date_str]> it) in
          let h := <[ref := it]> h in
          if DateDetect.nonempty date_str then
            match DateDetect.is_date_in_range (clock (2 * i + 1)%nat)
                    (opt_str date_str) from_date to_date with
            | Raise e => (h, Raise e)
            | Ok true =>
                apply_loop clock from_date to_date (S i) h rest (filtered_items ++ [ref])
            | Ok false =>
                apply_loop clock from_date to_date (S i) h rest filtered_items
            end
          else apply_loop clock from_date to_date (S i) h rest (filtered_items ++ [ref])
      end
  end.

Definition apply_date_detection (clock : nat -> Datetime.datetime) (h : store)
    (items : list nat) (from_date to_date : string) (item_type : string)
    : store * result (list nat) :=
  apply_loop clock from_date to_date 0 h items [].

(** *** [search_all_hybrid] *)

(** [future.result(timeout=30)]: the outcome of the submitted call, or
    [TimeoutError] when it has not finished in time. *)
Definition future_result {A} (late : bool) (outcome : result A) : result A :=
  if late then Raise TimeoutError else outcome.

(** The [for source, future in futures.items()] loop, on what each
    [future.result] gives. *)
Fixpoint collect (futures : list (string * result provider_result))
    (results : gmap string provider_result) : gmap string provider_result :=
  match futures with
  | [] => results
  | (source, r) :: futures' =>
      match r with
      | Ok v => collect futures' (<[source := v]> results)
      | Raise e => collect futures' (<[source := ([], "error")]> results)
      end
  end.

(** [late source] tells whether the worker of the category misses the
    thirty seconds of its [future.result]. *)
Definition search_all_hybrid (env : environ) (late : string -> bool)
    (topic from_date to_date : string) (config : gmap string pyval)
    (depth : string) : gmap string provider_result :=
  let futures :=
    [ ("reddit", (search_reddit_hybrid env topic from_date to_date config depth).2);
      ("x", (search_x_hybrid env topic from_date to_date config depth).2);
      ("web", (search_web_hybrid env topic from_date to_date config depth).2) ] in
  collect (map (fun '(source, outcome) =>
                  (source, future_result (late source) outcome)) futures) ∅.

End HybridSearch.

(** ** Python's [float] order, [min] and [max] *)

Module Float.

(** [a < b]; false as soon as one side is NaN. *)
Definition lt (a b : pyfloat) : bool :=
  match a, b with
  | FNaN, _ | _, FNaN => false
  | FInf true, FInf true => false
  | FInf true, _ => true
  | _, FInf true => false
  | FInf false, _ => false
  | _, FInf false => true
  | FFin x, FFin y => negb (Qle_bool y x)
  end.

(** [max(a, b)]: [b] when [b > a], else [a]. *)
Definition max (a b : pyfloat) : pyfloat := if lt a b then b else a.

(** [min(a, b)]: [b] when [b < a], else [a]. *)
Definition min (a b : pyfloat) : pyfloat := if lt b a then b else a.

Definition zero : pyfloat := FFin 0.
Definition one : pyfloat := FFin 1.
Definition half : pyfloat := FFin (1 # 2).

(** The value lies in the closed interval from 0.0 to 1.0. *)
Definition in_unit_interval (f : pyfloat) : Prop :=
  match f with
  | FFin q => (0 <= q)%Q /\ (q <= 1)%Q
  | _ => False
  end.

End Float.

(** ** The builtins [str] and [float] *)

Section Builtins.
(** [str] of a float, a list or a dict; [float] of a string ([None] for
    [ValueError]) and of an integer ([None] for [OverflowError]). *)
Variable repr_other : pyval -> string.
Variable float_of_string : string -> option pyfloat.
Variable float_of_int : Z -> option pyfloat.

Definition py_str (v : pyval) : string :=
  match v with
  | PNone => "None"
  | PBool true => "True"
  | PBool false => "False"
  | PInt z => pretty z
  | PStr s => s
  | _ => repr_other v
  end.

Definition py_float (v : pyval) : result pyfloat :=
  match v with
  | PFloat f => Ok f
  | PBool b => Ok (if b then Float.one else Float.zero)
  | PInt z =>
      match float_of_int z with
      | Some f => Ok f
      | None => Raise OverflowError
      end
  | PStr s =>
      match float_of_string s with
      | Some f => Ok f
      | None => Raise ValueError
      end
  | _ => Raise TypeError
  end.

End Builtins.

(** ** [openai_reddit.py]: validation and cleaning of the items *)

Module OpenaiReddit.

(** [re.match(r'^\d{4}-\d{2}-\d{2}$', s)]: [$] also matches before a final
    newline. *)
Definition is_iso_date (s : string) : bool :=
  match Re.match_here (DateDetect.digits 4 ++ Re.Lit "-" :: DateDetect.digits 2
                         ++ Re.Lit "-" :: DateDetect.digits 2) s with
  | Some (_, r) => String.eqb r "" || String.eqb r McpClient.newline
  | None => false
  end.

Section Clean.
Variable repr_other : pyval -> string.
Variable float_of_string : string -> option pyfloat.
Variable float_of_int : Z -> option pyfloat.

(** The dictionary built for one item that passed the URL test, with its
    date validated. *)
Definition clean_item (i : nat) (d : list (string * pyval)) (url : pyval)
    : result item :=
  let title := Str.strip (py_str repr_other (dict_get d "title" (PStr ""))) in
  let subreddit :=
    Str.lstrip_chars "r/"
      (Str.strip (py_str repr_other (dict_get d "subreddit" (PStr "")))) in
  let date := dict_get d "date" PNone in
  let why := Str.strip (py_str repr_other (dict_get d "why_relevant" (PStr ""))) in
  do rel <- py_float float_of_string float_of_int
              (dict_get d "relevance" (PFloat Float.half));
  let relevance := Float.min Float.one (Float.max Float.zero rel) in
  let date :=
    if truthy date && negb (is_iso_date (py_str repr_other date)) then PNone
    else date in
  Ok (list_to_map
        [ ("id", PStr ("R" +:+ pretty (i + 1)%nat));
          ("title", PStr title);
          ("url", url);
          ("subreddit", PStr subreddit);
          ("date", date);
          ("why_relevant", PStr why);
          ("relevance", PFloat relevance) ]).

(** The loop [for i, item in enumerate(items)] of [parse_reddit_response],
    from index [i] on. *)
Fixpoint clean_items (i : nat) (items : list pyval) : result (list item) :=
  match items with
  | [] => Ok []
  | PDict d :: rest =>
      let url := dict_get d "url" (PStr "") in
      do skip <- (if negb (truthy url) then Ok true
                  else do b <- str_in "reddit.com" url; Ok (negb b));
      if (skip : bool) then clean_items (S i) rest
      else
        do it <- clean_item i d url;
        do rest' <- clean_items (S i) rest;
        Ok (it :: rest')
  | _ :: rest => clean_items (S i) rest
  end.

End Clean.

End OpenaiReddit.

(** ** [searxng.py]: the response parsers *)

Module Searxng.

Definition not_slash (c : ascii) : bool := negb (Ascii.eqb c "/").

(** [re.search(r'/r/([^/]+)', url)], the group or the empty string. *)
Definition extract_subreddit_from_url (url : pyval) : result string :=
  match url with
  | PStr s =>
      Ok (default ""
            (Re.first_match
               (fun t => '(_, r) ← Re.match_here (Re.lits "/r/") t;
                         '(g, _) ← Re.span1 not_slash r;
                         Some g) s))
  | _ => Raise TypeError
  end.

(** [(?:x\.com|twitter\.com)] at the head of the string: the rest. *)
Definition match_x_host (t : string) : option string :=
  match Re.match_here (Re.lits "x.com") t with
  | Some (_, r) => Some r
  | None => '(_, r) ← Re.match_here (Re.lits "twitter.com") t; Some r
  end.

(** [re.search(r'(?:x\.com|twitter\.com)/([^/]+)/', url)] *)
Definition extract_author_from_x_url (url : pyval) : result string :=
  match url with
  | PStr s =>
      Ok (default ""
            (Re.first_match
               (fun t => r ← match_x_host t;
                         '(_, r) ← Re.match_here (Re.lits "/") r;
                         '(g, r) ← Re.span1 not_slash r;
                         '(_, _) ← Re.match_here (Re.lits "/") r;
                         Some g) s))
  | _ => Raise TypeError
  end.

(** [https?://(?:www\.)?([^/]+)] at the head of the string. *)
Definition match_domain (t : string) : option string :=
  '(_, r) ← Re.match_here (Re.lits "http") t;
  let r := match Re.match_here (Re.lits "s") r with
           | Some (_, r') => r'
           | None => r
           end in
  '(_, r) ← Re.match_here (Re.lits "://") r;
  match (match Re.match_here (Re.lits "www.") r with
         | Some (_, r') => Re.span1 not_slash r'
         | None => None
         end) with
  | Some (g, _) => Some g
  | None => '(g, _) ← Re.span1 not_slash r; Some g
  end.

Definition _extract_domain_from_url (url : pyval) : result string :=
  match url with
  | PStr s => Ok (default "" (Re.first_match match_domain s))
  | _ => Raise TypeError
  end.

(** [snippet[:200]] *)
Definition slice200 (v : pyval) : result pyval :=
  match v with
  | PStr s => Ok (PStr (Str.take 200 s))
  | PList l => Ok (PList (firstn 200 l))
  | _ => Raise TypeError
  end.

(** What iterating over [response.get("results", [])] yields. *)
Definition iterate (v : pyval) : result (list pyval) :=
  match v with
  | PList l => Ok l
  | PDict d => Ok (map (fun kv => PStr kv.1) d)
  | PStr s => Ok (map (fun c => PStr (String c EmptyString)) (String.list_ascii_of_string s))
  | _ => Raise TypeError
  end.

Definition excluded_patterns : list string :=
  [ "business.reddit.com"; "developers.reddit.com";
    "reddit.com/r/ads/"; "reddit.com/r/redditsecurity/" ].

(** [any(pattern in url for pattern in patterns)] *)
Fixpoint any_in (patterns : list string) (url : pyval) : result bool :=
  match patterns with
  | [] => Ok false
  | p :: ps =>
      do b <- str_in p url;
      if (b : bool) then Ok true else any_in ps url
  end.

Section Parse.
(** [hash] on strings; the clock as in [HybridSearch.apply_loop]. *)
Variable py_hash : string -> Z.
Variable clock : nat -> Datetime.datetime.
Variables from_date to_date : string.

Definition _generate_id_from_url (url : string) : string :=
  pretty (Z.abs (py_hash url)).

(** The date of a result: the API field when there is one, else the
    detection. *)
Definition result_date (i : nat) (result_ : list (string * pyval))
    (url snippet title : pyval) : result (pyval * string) :=
  let api_date := py_or (dict_get result_ "publication_date" PNone)
                        (dict_get result_ "publish_date" PNone) in
  if truthy api_date then Ok (api_date, "high")
  else
    do '(date_str, date_confidence) <-
      DateDetect.extract_date_signals (clock (2 * i)%nat) url snippet title;
    Ok (opt_str date_str, date_confidence).

(** [date_str and not is_date_in_range(date_str, from_date, to_date)] *)
Definition out_of_range (i : nat) (date_str : pyval) : result bool :=
  if truthy date_str then
    do b <- DateDetect.is_date_in_range (clock (2 * i + 1)%nat) date_str
              from_date to_date;
    Ok (negb b)
  else Ok false.

Definition id_of (url : pyval) : string :=
  match url with
  | PStr s => _generate_id_from_url s
  | _ => ""
  end.

(** The body of the loop of [parse_reddit_response]: the item, or [None]
    for [continue]. *)
Definition reddit_item (i : nat) (result_ : pyval)
    : result (option item) :=
  match result_ with
  | PDict d =>
      let url := dict_get d "url" (PStr "") in
      do is_reddit <- str_in "reddit.com" url;
      if negb is_reddit then Ok None
      else
        do excluded <- any_in excluded_patterns url;
        if (excluded : bool) then Ok None
        else
          do subreddit <- extract_subreddit_from_url url;
          if String.eqb subreddit "" then Ok None
          else
            let snippet := dict_get d "content" (PStr "") in
            let title := dict_get d "title" (PStr "") in
            do '(date_str, date_confidence) <- result_date i d url snippet title;
            do out <- out_of_range i date_str;
            if (out : bool) then Ok None
            else
              do why <- slice200 snippet;
              Ok (Some (list_to_map
                [ ("id", PStr (id_of url));
                  ("title", title);
                  ("url", url);
                  ("subreddit", PStr subreddit);
                  ("date", date_str);
                  ("relevance", dict_get d "score" (PFloat Float.zero));
                  ("why_relevant", why);
                  ("date_confidence", PStr date_confidence) ]))
  | _ => Raise AttributeError
  end.

Definition x_item (i : nat) (result_ : pyval) : result (option item) :=
  match result_ with
  | PDict d =>
      let url := dict_get d "url" (PStr "") in
      do is_x <- str_in "x.com" url;
      do is_twitter <- (if (is_x : bool) then Ok true else str_in "twitter.com" url);
      if negb is_twitter then Ok None
      else
        do author_handle <- extract_author_from_x_url url;
        let content := dict_get d "content" (PStr "") in
        let title := dict_get d "title" (PStr "") in
        do '(date_str, date_confidence) <- result_date i d url content title;
        do out <- out_of_range i date_str;
        if (out : bool) then Ok None
        else
          Ok (Some (list_to_map
            [ ("id", PStr (id_of url));
              ("text", py_or title content);
              ("url", url);
              ("author_handle", PStr author_handle);
              ("date", date_str);
              ("relevance", dict_get d "score" (PFloat Float.zero));
              ("date_confidence", PStr date_confidence) ]))
  | _ => Raise AttributeError
  end.

Definition web_item (i : nat) (result_ : pyval) : result (option item) :=
  match result_ with
  | PDict d =>
      let url := dict_get d "url" (PStr "") in
      do source_domain <- _extract_domain_from_url url;
      let content := dict_get d "content" (PStr "") in
      let title := dict_get d "title" (PStr "") in
      do '(date_str, date_confidence) <- result_date i d url content title;
      do out <- out_of_range i date_str;
      if (out : bool) then Ok None
      else
        Ok (Some (list_to_map
          [ ("id", PStr (id_of url));
            ("title", title);
            ("url", url);
            ("source_domain", PStr source_domain);
            ("snippet", content);
            ("date", date_str);
            ("relevance", dict_get d "score" (PFloat Float.zero));
            ("date_confidence", PStr date_confidence) ]))
  | _ => Raise AttributeError
  end.

(** [for result in results: ...; items.append(item)] from index [i] on. *)
Fixpoint parse_loop (body : nat -> pyval -> result (option item))
    (i : nat) (results : list pyval) : result (list item) :=
  match results with
  | [] => Ok []
  | r :: rest =>
      do o <- body i r;
      do items <- parse_loop body (S i) rest;
      Ok (match o with Some it => it :: items | None => items end)
  end.

Definition parse_response (body : nat -> pyval -> result (option item))
    (response : list (string * pyval)) : result (list item) :=
  if bool_decide (is_Some (dict_lookup "error" response)) then Ok []
  else
    do results <- iterate (dict_get response "results" (PList []));
    parse_loop body 0 results.

Definition parse_reddit_response := parse_response reddit_item.
Definition parse_x_response := parse_response x_item.
Definition parse_web_response := parse_response web_item.

End Parse.

End Searxng.

(** * Specifications *)

(** ** Dates embedded in a URL *)

Definition is_digits (n : nat) (s : string) : Prop :=
  String.length s = n /\ Str.all Str.is_digit s = true.

(** [url_date url date]: the URL contains [/YYYY/MM/DD/], [/YYYY-MM-DD/] or
    [/YYYYMMDD], and [date] is [YYYY-MM-DD]. *)
Inductive url_date (url : string) : string -> Prop :=
  | url_date_slash pre y m d post :
      is_digits 4 y -> is_digits 2 m -> is_digits 2 d ->
      url = pre +:+ "/" +:+ y +:+ "/" +:+ m +:+ "/" +:+ d +:+ "/" +:+ post ->
      url_date url (DateDetect.ymd y m d)
  | url_date_dash pre y m d post :
      is_digits 4 y -> is_digits 2 m -> is_digits 2 d ->
      url = pre +:+ "/" +:+ y +:+ "-" +:+ m +:+ "-" +:+ d +:+ "/" +:+ post ->
      url_date url (DateDetect.ymd y m d)
  | url_date_bare pre y m d post :
      is_digits 4 y -> is_digits 2 m -> is_digits 2 d ->
      url = pre +:+ "/" +:+ y +:+ m +:+ d +:+ post ->
      url_date url (DateDetect.ymd y m d).

(** ** The date fields of an item *)

(** The [date] field is absent: no such key, or the value [None]. *)
Definition date_absent (it : item) : Prop :=
  it !! "date" = None \/ it !! "date" = Some PNone.

(** [date_confidence == "none"] if and only if [date] is absent. *)
Definition date_pairing (it : item) : Prop :=
  it !! "date_confidence" = Some (PStr "none") <-> date_absent it.

(** The two dictionaries agree on every key but [date] and
    [date_confidence]. *)
Definition same_but_dates (d d' : item) : Prop :=
  forall k, k <> "date" -> k <> "date_confidence" -> d' !! k = d !! k.

(** ** The protocol client *)

(** The stream the client reads: the pipe of its subprocess, or the standard
    input. *)
Definition inbound (c : McpClient.client) (w : McpClient.world) : list string :=
  match McpClient.process c with
  | Some p => McpClient.stdout_lines p
  | None => McpClient.sys_stdin w
  end.

(** The request can be written. *)
Definition can_send (c : McpClient.client) : Prop :=
  match McpClient.process c with
  | Some p => McpClient.stdin_closed p = false /\ McpClient.stdin_broken p = false
  | None => True
  end.

(** An envelope with a [method] key and no [result] key. *)
Definition notification (d : list (string * pyval)) : Prop :=
  is_Some (dict_lookup "method" d) /\ dict_lookup "result" d = None.

Definition notification_line (json_loads : string -> option pyval) (l : string) : Prop :=
  Str.strip l <> "" /\
  exists d, json_loads (Str.strip l) = Some (PDict d) /\ notification d.

(** A success response: an envelope with [result] and without [error]. *)
Definition success_line (json_loads : string -> option pyval) (l : string)
    (v : pyval) : Prop :=
  Str.strip l <> "" /\
  exists d, json_loads (Str.strip l) = Some (PDict d) /\
    dict_lookup "result" d = Some v /\ dict_lookup "error" d = None.

(** The timeout has not run out at any of the first [n + 1] turns of the
    loop. *)
Definition in_time (w : McpClient.world) (c : McpClient.client) (n : nat) : Prop :=
  forall k, (k <= n)%nat ->
    (McpClient.clock w (S (McpClient.ticks w) + k)
     - McpClient.clock w (McpClient.ticks w) <= inject_Z (McpClient.timeout c))%Q.

(** ** The orchestrator *)

(** The entry of a category: what its worker returned, or the error pair. *)
Definition entry (r : result (list item * string)) : list item * string :=
  match r with
  | Ok v => v
  | Raise _ => ([], "error")
  end.

(** [USE_CLAUDE_MCP] is not set or is a string, as [env.get_config] has it. *)
Definition config_has_string_flag (config : gmap string pyval) : Prop :=
  match config !! "USE_CLAUDE_MCP" with
  | None | Some (PStr _) => True
  | Some _ => False
  end.

(** A search function returned no items, with the tag of the wrapper exactly
    when the wrapper is selected, and without calling [search_web]. *)
Definition returns_no_items (env : ClaudeMcp.environ) (config : gmap string pyval)
    (out : list HybridSearch.event * result (list item * string)) : Prop :=
  exists trace tag,
    out = (trace, Ok ([], tag))
    /\ (tag = "claude_mcp" \/ tag = "none")
    /\ (tag = "claude_mcp" <-> ClaudeMcp.should_use_claude_mcp env config = Ok true)
    /\ HybridSearch.Invoked "search_web" ∉ trace.

(** ** Example inputs *)

Module Example.
Import Datetime McpClient.

(** Half past two in the afternoon of 30 January 2026. *)
Definition now : datetime := mk_datetime 2026 1 30 14 30 0 0.

Definition quote : string := String (ascii_of_nat 34) EmptyString.

(** A notification and a success response, as lines of JSON text. *)
Definition notification_text : string :=
  "{" +:+ quote +:+ "jsonrpc" +:+ quote +:+ ": " +:+ quote +:+ "2.0" +:+ quote
  +:+ ", " +:+ quote +:+ "method" +:+ quote +:+ ": " +:+ quote
  +:+ "notifications/progress" +:+ quote +:+ "}".

Definition answer_text : string :=
  "{" +:+ quote +:+ "jsonrpc" +:+ quote +:+ ": " +:+ quote +:+ "2.0" +:+ quote
  +:+ ", " +:+ quote +:+ "id" +:+ quote +:+ ": 1, " +:+ quote +:+ "result"
  +:+ quote +:+ ": 42}".

(** [json.loads] on the two texts. *)
Definition json_loads (s : string) : option pyval :=
  if String.eqb s notification_text then
    Some (PDict [("jsonrpc", PStr "2.0"); ("method", PStr "notifications/progress")])
  else if String.eqb s answer_text then
    Some (PDict [("jsonrpc", PStr "2.0"); ("id", PInt 1); ("result", PInt 42)])
  else None.

Definition json_dumps (v : pyval) : string := "{}".

Definition world0 : world :=
  mk_world [notification_text +:+ newline; answer_text +:+ newline] []
    (fun _ => 0%Q) 0.

Definition client0 : client := mk_client None 120 0 None.

(** A Reddit result of SearXNG with a score above one. *)
Definition searxng_response : list (string * pyval) :=
  [ ("results", PList [ PDict
      [ ("url", PStr "https://www.reddit.com/r/rust/comments/abc/widget_safety");
        ("title", PStr "Widget safety");
        ("content", PStr "A long thread");
        ("publication_date", PStr "2026-01-15");
        ("score", PFloat (FFin 5)) ] ]) ].

(** An item of the model's answer without a date. *)
Definition openai_items : list pyval :=
  [ PDict [ ("title", PStr "Widget safety");
            ("url", PStr "https://www.reddit.com/r/rust/comments/abc");
            ("subreddit", PStr "rust");
            ("why_relevant", PStr "on topic");
            ("relevance", PFloat (FFin (17 # 20))) ] ].

(** A store with one adapter-built item dated 15 January 2026. *)
Definition store0 : gmap nat item :=
  {[ 0%nat := list_to_map
       [ ("id", PStr "R1");
         ("title", PStr "Widget safety");
         ("url", PStr "https://www.reddit.com/r/rust/comments/abc");
         ("date", PStr "2026-01-15");
         ("relevance", PFloat (FFin (17 # 20))) ] ]}.

(** [apply_date_detection] on that store, for the window of January 2026. *)
Definition detected : gmap nat item * result (list nat) :=
  HybridSearch.apply_date_detection (fun _ => now) store0 [0%nat]
    "2026-01-01" "2026-01-30" "reddit".

End Example.

(** * Facts *)

(** ** Strings *)

Lemma app_cons (c : ascii) (s t : string) : String c s +:+ t = String c (s +:+ t).
Proof. reflexivity. Qed.

Lemma app_empty_l (s : string) : "" +:+ s = s.
Proof. reflexivity. Qed.

Lemma app_assoc_str (s t u : string) : (s +:+ t) +:+ u = s +:+ (t +:+ u).
Proof. induction s as [|c s IH]; [reflexivity|]. rewrite !app_cons, IH. reflexivity. Qed.

Lemma eqb_false_of_ne (s t : string) : s <> t -> String.eqb s t = false.
Proof. intros H. apply String.eqb_neq. exact H. Qed.

(** ** The scan of [re.search] *)

Module ReFacts.
Import Re.

Lemma match_here_sound p : forall s m r,
  match_here p s = Some (m, r) -> s = m +:+ r /\ shape p m.
Proof.
  induction p as [|k p IH]; intros s m r H; simpl in H.
  - injection H as <- <-. split; [reflexivity | exact I].
  - destruct s as [|c s]; [discriminate|].
    destruct (cmatch k c) eqn:Hk; [|discriminate].
    destruct (match_here p s) as [[m' r']|] eqn:Hm; [|discriminate].
    injection H as <- <-. destruct (IH _ _ _ Hm) as [-> Hs].
    split; [reflexivity | split; assumption].
Qed.

Lemma match_here_complete p : forall m r,
  shape p m -> match_here p (m +:+ r) = Some (m, r).
Proof.
  induction p as [|k p IH]; intros m r H; destruct m as [|c m]; simpl in H;
    try contradiction.
  - reflexivity.
  - destruct H as [Hk Hs]. rewrite app_cons. simpl. rewrite Hk, (IH _ _ Hs).
    reflexivity.
Qed.

Lemma search_unfold p s :
  search p s =
  match match_here p s with
  | Some (m, r) => Some (EmptyString, m, r)
  | None =>
      match s with
      | EmptyString => None
      | String c s' =>
          match search p s' with
          | Some (pre, m, r) => Some (String c pre, m, r)
          | None => None
          end
      end
  end.
Proof. destruct s; reflexivity. Qed.

(** What [search] returns is a match inside the text. *)
Lemma search_sound p : forall s pre m r,
  search p s = Some (pre, m, r) -> s = pre +:+ (m +:+ r) /\ shape p m.
Proof.
  induction s as [|c s IH]; intros pre m r H; simpl in H.
  - destruct (match_here p "") as [[m' r']|] eqn:Hm; [|discriminate].
    injection H as <- <- <-. exact (match_here_sound _ _ _ _ Hm).
  - destruct (match_here p (String c s)) as [[m' r']|] eqn:Hm.
    + injection H as <- <- <-. exact (match_here_sound _ _ _ _ Hm).
    + destruct (search p s) as [[[pre' m'] r']|] eqn:Hs; [|discriminate].
      injection H as <- <- <-. destruct (IH _ _ _ eq_refl) as [-> Hsh].
      split; [reflexivity | assumption].
Qed.

(** A text that contains a match is not missed. *)
Lemma search_complete p : forall pre m r,
  shape p m -> search p (pre +:+ (m +:+ r)) <> None.
Proof.
  induction pre as [|c pre IH]; intros m r H.
  - rewrite app_empty_l, search_unfold, (match_here_complete p _ r H). discriminate.
  - rewrite app_cons, search_unfold.
    destruct (match_here p _) as [[m' r']|]; [discriminate|].
    specialize (IH m r H). destruct (search p _) as [[[? ?] ?]|]; congruence.
Qed.

(** The match that [search] returns is the leftmost one. *)
Lemma search_leftmost p : forall s pre m r,
  search p s = Some (pre, m, r) ->
  forall pre' m' r', s = pre' +:+ (m' +:+ r') -> shape p m' ->
    (String.length pre <= String.length pre')%nat.
Proof.
  induction s as [|c s IH]; intros pre m r H pre' m' r' E Hsh.
  - simpl in H. destruct (match_here p "") as [[? ?]|]; [|discriminate].
    injection H as <- <- <-. simpl. lia.
  - simpl in H. destruct (match_here p (String c s)) as [[m1 r1]|] eqn:Hm.
    + injection H as <- <- <-. simpl. lia.
    + destruct (search p s) as [[[pre1 m1] r1]|] eqn:Hs; [|discriminate].
      injection H as <- <- <-.
      destruct pre' as [|c' pre'].
      * rewrite app_empty_l in E. rewrite E, (match_here_complete p _ _ Hsh) in Hm.
        discriminate.
      * rewrite app_cons in E. injection E as -> ->.
        specialize (IH _ _ _ eq_refl _ _ _ eq_refl Hsh). simpl. lia.
Qed.

Lemma shape_cons_inv k p m :
  shape (k :: p) m -> exists c m', m = String c m' /\ cmatch k c = true /\ shape p m'.
Proof. destruct m as [|c m]; [contradiction|]. intros [? ?]. eauto. Qed.

Lemma shape_nil_inv m : shape [] m -> m = "".
Proof. destruct m; [reflexivity | contradiction]. Qed.

Lemma shape_cons_intro k p c m :
  cmatch k c = true -> shape p m -> shape (k :: p) (String c m).
Proof. intros; split; assumption. Qed.

Lemma cmatch_lit a c : cmatch (Lit a) c = true -> c = a.
Proof. intros H. apply Ascii.eqb_eq in H. congruence. Qed.

Lemma cmatch_lit_refl a : cmatch (Lit a) a = true.
Proof. apply Ascii.eqb_refl. Qed.

End ReFacts.

(** Split a text of known shape into its characters. *)
Ltac explode H :=
  cbn [replicate app] in H;
  repeat (let c := fresh "c" in let m := fresh "m" in let Hc := fresh "Hc" in
          apply ReFacts.shape_cons_inv in H as (c & m & -> & Hc & H);
          try (apply ReFacts.cmatch_lit in Hc; subst c));
  apply ReFacts.shape_nil_inv in H as ->.

Ltac build_shape :=
  cbn [replicate app];
  repeat (apply ReFacts.shape_cons_intro;
          [first [apply ReFacts.cmatch_lit_refl | assumption] |]);
  exact I.

(** Name the groups of a matched URL date. *)
Ltac url_groups :=
  match goal with
  | |- context [String "/" (String ?a (String ?b (String ?c (String ?d
                  (String ?s1 (String ?e (String ?f
                     (String ?s2 (String ?g (String ?h (String "/" _)))))))))))] =>
      exists (String a (String b (String c (String d "")))),
             (String e (String f "")), (String g (String h ""))
  | |- context [String "/" (String ?a (String ?b (String ?c (String ?d
                  (String ?e (String ?f (String ?g (String ?h _))))))))] =>
      exists (String a (String b (String c (String d "")))),
             (String e (String f "")), (String g (String h ""))
  end.

(** ** The URL patterns against [url_date] *)

Module UrlFacts.
Import Re ReFacts DateDetect.

Lemma is_digits_intro2 a b :
  Str.is_digit a = true -> Str.is_digit b = true ->
  is_digits 2 (String a (String b "")).
Proof. intros Ha Hb. split; [reflexivity | simpl; rewrite Ha, Hb; reflexivity]. Qed.

Lemma is_digits_intro4 a b c d :
  Str.is_digit a = true -> Str.is_digit b = true ->
  Str.is_digit c = true -> Str.is_digit d = true ->
  is_digits 4 (String a (String b (String c (String d "")))).
Proof.
  intros Ha Hb Hc Hd. split; [reflexivity | simpl; rewrite Ha, Hb, Hc, Hd; reflexivity].
Qed.

Lemma is_digits_elim2 s :
  is_digits 2 s -> exists a b, s = String a (String b "") /\
    Str.is_digit a = true /\ Str.is_digit b = true.
Proof.
  intros [Hl Ha]. destruct s as [|a [|b [|? ?]]]; try discriminate.
  simpl in Ha. apply andb_prop in Ha as [Ha Hb]. apply andb_prop in Hb as [Hb _].
  eauto.
Qed.

Lemma is_digits_elim4 s :
  is_digits 4 s -> exists a b c d, s = String a (String b (String c (String d ""))) /\
    Str.is_digit a = true /\ Str.is_digit b = true /\
    Str.is_digit c = true /\ Str.is_digit d = true.
Proof.
  intros [Hl Ha]. destruct s as [|a [|b [|c [|d [|? ?]]]]]; try discriminate.
  simpl in Ha. repeat (apply andb_prop in Ha as [? Ha]).
  do 4 eexists. split; [reflexivity|]. auto.
Qed.

Ltac groups_are_digits :=
  split; [apply is_digits_intro4; assumption|];
  split; [apply is_digits_intro2; assumption|];
  split; [apply is_digits_intro2; assumption|];
  split; reflexivity.

Lemma slash_shape m :
  shape url_slash_pattern m ->
  exists y mo d, is_digits 4 y /\ is_digits 2 mo /\ is_digits 2 d /\
    m = "/" +:+ y +:+ "/" +:+ mo +:+ "/" +:+ d +:+ "/" /\
    ymd (group 1 4 m) (group 6 2 m) (group 9 2 m) = ymd y mo d.
Proof.
  intros H. unfold url_slash_pattern, digits in H. explode H.
  url_groups. groups_are_digits.
Qed.

Lemma dash_shape m :
  shape url_dash_pattern m ->
  exists y mo d, is_digits 4 y /\ is_digits 2 mo /\ is_digits 2 d /\
    m = "/" +:+ y +:+ "-" +:+ mo +:+ "-" +:+ d +:+ "/" /\
    ymd (group 1 4 m) (group 6 2 m) (group 9 2 m) = ymd y mo d.
Proof.
  intros H. unfold url_dash_pattern, digits in H. explode H.
  url_groups. groups_are_digits.
Qed.

Lemma bare_shape m :
  shape url_bare_pattern m ->
  exists y mo d, is_digits 4 y /\ is_digits 2 mo /\ is_digits 2 d /\
    m = "/" +:+ y +:+ mo +:+ d /\
    ymd (group 1 4 m) (group 5 2 m) (group 7 2 m) = ymd y mo d.
Proof.
  intros H. unfold url_bare_pattern, digits in H. explode H.
  url_groups. groups_are_digits.
Qed.

Ltac split_digits :=
  intros (a & b & c & e & -> & ? & ? & ? & ?)%is_digits_elim4
         (f & g & -> & ? & ?)%is_digits_elim2 (h & i & -> & ? & ?)%is_digits_elim2.

Lemma shape_slash y mo d :
  is_digits 4 y -> is_digits 2 mo -> is_digits 2 d ->
  shape url_slash_pattern ("/" +:+ y +:+ "/" +:+ mo +:+ "/" +:+ d +:+ "/").
Proof.
  split_digits. unfold url_slash_pattern, digits.
  rewrite ?app_cons, ?app_empty_l. build_shape.
Qed.

Lemma shape_dash y mo d :
  is_digits 4 y -> is_digits 2 mo -> is_digits 2 d ->
  shape url_dash_pattern ("/" +:+ y +:+ "-" +:+ mo +:+ "-" +:+ d +:+ "/").
Proof.
  split_digits. unfold url_dash_pattern, digits.
  rewrite ?app_cons, ?app_empty_l. build_shape.
Qed.

Lemma shape_bare y mo d :
  is_digits 4 y -> is_digits 2 mo -> is_digits 2 d ->
  shape url_bare_pattern ("/" +:+ y +:+ mo +:+ d).
Proof.
  split_digits. unfold url_bare_pattern, digits.
  rewrite ?app_cons, ?app_empty_l. build_shape.
Qed.

(** What [first_pattern] finds is a date embedded in the URL. *)
Lemma first_pattern_sound url date :
  first_pattern url_patterns url = Some date -> url_date url date.
Proof.
  unfold url_patterns. simpl.
  destruct (search url_slash_pattern url) as [[[pre m] r]|] eqn:H1.
  { intros [= <-]. apply search_sound in H1 as [-> Hs].
    apply slash_shape in Hs as (y & mo & d & ? & ? & ? & -> & ->).
    apply (url_date_slash _ pre y mo d r); try assumption.
    rewrite !app_assoc_str. reflexivity. }
  destruct (search url_dash_pattern url) as [[[pre m] r]|] eqn:H2.
  { intros [= <-]. apply search_sound in H2 as [-> Hs].
    apply dash_shape in Hs as (y & mo & d & ? & ? & ? & -> & ->).
    apply (url_date_dash _ pre y mo d r); try assumption.
    rewrite !app_assoc_str. reflexivity. }
  destruct (search url_bare_pattern url) as [[[pre m] r]|] eqn:H3.
  { intros [= <-]. apply search_sound in H3 as [-> Hs].
    apply bare_shape in Hs as (y & mo & d & ? & ? & ? & -> & ->).
    apply (url_date_bare _ pre y mo d r); try assumption.
    rewrite !app_assoc_str. reflexivity. }
  discriminate.
Qed.

(** A URL with an embedded date is matched by one of the patterns. *)
Lemma first_pattern_complete url date :
  url_date url date -> first_pattern url_patterns url <> None.
Proof.
  intros H. unfold url_patterns. simpl.
  destruct (search url_slash_pattern url) as [[[? ?] ?]|] eqn:H1; [discriminate|].
  destruct (search url_dash_pattern url) as [[[? ?] ?]|] eqn:H2; [discriminate|].
  destruct (search url_bare_pattern url) as [[[? ?] ?]|] eqn:H3; [discriminate|].
  exfalso. destruct H as [pre y m d post Hy Hm Hd E|pre y m d post Hy Hm Hd E
                         |pre y m d post Hy Hm Hd E].
  - apply (search_complete url_slash_pattern pre _ post (shape_slash y m d Hy Hm Hd)).
    rewrite !app_assoc_str. rewrite <- E. exact H1.
  - apply (search_complete url_dash_pattern pre _ post (shape_dash y m d Hy Hm Hd)).
    rewrite !app_assoc_str. rewrite <- E. exact H2.
  - apply (search_complete url_bare_pattern pre _ post (shape_bare y m d Hy Hm Hd)).
    rewrite !app_assoc_str. rewrite <- E. exact H3.
Qed.

(** A URL on which no pattern matches has no embedded date. *)
Lemma no_url_date url :
  first_pattern url_patterns url = None -> forall date, ~ url_date url date.
Proof. intros E date H. exact (first_pattern_complete _ _ H E). Qed.

End UrlFacts.

(** ** [date_detect.py] *)

Module DateFacts.
Import Datetime DateDetect.

Lemma ymd_nonempty y m d : nonempty (Some (ymd y m d)) = true.
Proof. destruct y; reflexivity. Qed.

Lemma pad_digits_cons w : forall z c acc,
  exists c' s, Str.pad_digits w z (String c acc) = String c' s.
Proof. induction w as [|w IH]; intros z c acc; simpl; eauto. Qed.

Lemma strftime_nonempty dt : nonempty (Some (strftime_ymd dt)) = true.
Proof.
  unfold strftime_ymd. rewrite app_cons.
  destruct (pad_digits_cons 4 (year dt) "-"
              ("" +:+ Str.pad_digits 2 (month dt) ("-" +:+ Str.pad_digits 2 (day dt) "")))
    as (c & s & ->).
  reflexivity.
Qed.

(** A date that the text patterns find is a non-empty string. *)
Lemma text_patterns_nonempty now text d :
  text_patterns now text = Ok (Some d) -> nonempty (Some d) = true.
Proof.
  unfold text_patterns.
  destruct (Re.search_word "today" text); [intros [= <-]; reflexivity|].
  destruct (Re.search_word "yesterday" text); [intros [= <-]; reflexivity|].
  destruct (Re.first_match match_days_ago text) as [n|].
  { destruct (minus_days now (Str.int_digits n)) as [dt|e]; cbn [bind]; [|discriminate].
    intros [= <-]. apply strftime_nonempty. }
  destruct (Re.first_match match_long_date text) as [[[dd mn] y]|].
  { intros [= <-]. apply ymd_nonempty. }
  destruct (Re.search iso_pattern text) as [[[? m] ?]|]; [|discriminate].
  intros [= <-]. apply ymd_nonempty.
Qed.

Lemma extract_date_from_text_nonempty now text d :
  extract_date_from_text now text = Ok (Some d) -> nonempty (Some d) = true.
Proof.
  unfold extract_date_from_text. destruct (truthy text); simpl; [|discriminate].
  destruct text; try discriminate. apply text_patterns_nonempty.
Qed.

Lemma url_date_nonempty url date : url_date url date -> nonempty (Some date) = true.
Proof. intros []; apply ymd_nonempty. Qed.

Lemma nonempty_true_inv o : nonempty o = true -> exists s, o = Some s /\ s <> "".
Proof.
  destruct o as [s|]; [|discriminate]. simpl. intros H. exists s.
  split; [reflexivity|]. intros ->. discriminate.
Qed.

(** What [extract_date_signals] returns: nothing with ["none"], or a
    non-empty string with one of the three tiers. *)
Lemma extract_date_signals_cases now url snippet title d c :
  extract_date_signals now url snippet title = Ok (d, c) ->
  (d = None /\ c = "none") \/
  (exists s, d = Some s /\ s <> "" /\ (c = "high" \/ c = "med" \/ c = "low")).
Proof.
  unfold extract_date_signals.
  destruct (extract_date_from_url url) as [du|]; cbn [bind]; [|discriminate].
  destruct (nonempty du) eqn:Hu.
  { intros [= <- <-]. right. apply nonempty_true_inv in Hu as (s & -> & ?). eauto 6. }
  destruct (extract_date_from_text now snippet) as [ds|]; cbn [bind]; [|discriminate].
  destruct (nonempty ds) eqn:Hs.
  { intros [= <- <-]. right. apply nonempty_true_inv in Hs as (s & -> & ?). eauto 7. }
  destruct (extract_date_from_text now title) as [dt|]; cbn [bind]; [|discriminate].
  destruct (nonempty dt) eqn:Ht.
  { intros [= <- <-]. right. apply nonempty_true_inv in Ht as (s & -> & ?). eauto 7. }
  intros [= <- <-]. left. split; reflexivity.
Qed.

(** The range filter fails open: a candidate that is empty, ["none"] or
    not a string is included. *)
Lemma is_date_in_range_fail_open now v from_date to_date :
  truthy v = false \/ v = PStr "none" \/ (forall s, v <> PStr s) ->
  is_date_in_range now v from_date to_date = Ok true.
Proof.
  unfold is_date_in_range. intros [H|[->|H]].
  - rewrite H. reflexivity.
  - reflexivity.
  - destruct (negb (truthy v) || is_none_literal v); [reflexivity|].
    unfold in_range_checked. destruct v; try reflexivity. exfalso. eapply H. reflexivity.
Qed.

(** ... and so is a string that [strptime] refuses. *)
Lemma is_date_in_range_unparseable now s from_date to_date :
  s <> "today" -> s <> "yesterday" -> strptime_ymd s = Raise ValueError ->
  is_date_in_range now (PStr s) from_date to_date = Ok true.
Proof.
  intros H1 H2 H3. unfold is_date_in_range.
  destruct (negb (truthy (PStr s)) || is_none_literal (PStr s)); [reflexivity|].
  unfold in_range_checked.
  rewrite (eqb_false_of_ne _ _ H1), (eqb_false_of_ne _ _ H2), H3. reflexivity.
Qed.

(** On three strings that parse, the filter is the comparison of the
    dates, both bounds included. *)
Lemma is_date_in_range_absolute now s from_date to_date c a b :
  strptime_ymd s = Ok c -> strptime_ymd from_date = Ok a ->
  strptime_ymd to_date = Ok b ->
  is_date_in_range now (PStr s) from_date to_date = Ok (le a c && le c b).
Proof.
  intros Hc Ha Hb. unfold is_date_in_range, in_range_checked.
  destruct (String.eqb s "") eqn:E0.
  { apply String.eqb_eq in E0. subst s. discriminate. }
  destruct (String.eqb s "none") eqn:E1.
  { apply String.eqb_eq in E1. subst s. discriminate. }
  destruct (String.eqb s "today") eqn:E2.
  { apply String.eqb_eq in E2. subst s. discriminate. }
  destruct (String.eqb s "yesterday") eqn:E3.
  { apply String.eqb_eq in E3. subst s. discriminate. }
  simpl. rewrite E0, E1. simpl. rewrite Hc, Ha, Hb. reflexivity.
Qed.

Lemma lex_le_refl l : lex_le l l = true.
Proof.
  induction l as [|x l IH]; [reflexivity|]. simpl.
  rewrite Z.eqb_refl, IH. apply orb_true_r.
Qed.

(** A date is within the window that it bounds. *)
Lemma le_refl dt : le dt dt = true.
Proof. apply lex_le_refl. Qed.

End DateFacts.

Import Datetime DateDetect.

(** C6. Extraction precedence: when a date is embedded in the URL
    ([/YYYY/MM/DD/], [/YYYY-MM-DD/] or [/YYYYMMDD]), [extract_date_signals]
    returns a date embedded in the URL with confidence ["high"], whatever the
    snippet and the title hold; when none is embedded, a date found in the
    snippet is returned with ["med"]; when the snippet has none, a date found
    in the title is returned with ["low"]; when neither has one, the result
    is [(None, "none")]. *)
Theorem extract_date_signals_precedence (now : datetime) (url snippet title : string) :
  ((exists date, url_date url date) ->
     exists date, url_date url date /\
       forall now' snippet' title',
         extract_date_signals now' (PStr url) snippet' title' = Ok (Some date, "high"))
  /\ ((forall date, ~ url_date url date) ->
        (forall d, extract_date_from_text now (PStr snippet) = Ok (Some d) ->
           extract_date_signals now (PStr url) (PStr snippet) (PStr title)
           = Ok (Some d, "med"))
        /\ (extract_date_from_text now (PStr snippet) = Ok None ->
            forall d, extract_date_from_text now (PStr title) = Ok (Some d) ->
              extract_date_signals now (PStr url) (PStr snippet) (PStr title)
              = Ok (Some d, "low"))
        /\ (extract_date_from_text now (PStr snippet) = Ok None ->
            extract_date_from_text now (PStr title) = Ok None ->
            extract_date_signals now (PStr url) (PStr snippet) (PStr title)
            = Ok (None, "none"))).
Proof.
  split.
  - intros [date H]. apply UrlFacts.first_pattern_complete in H.
    destruct (first_pattern url_patterns url) as [date'|] eqn:E; [|congruence].
    exists date'. pose proof (UrlFacts.first_pattern_sound _ _ E) as Hd.
    split; [exact Hd|]. intros now' snippet' title'.
    unfold extract_date_signals, extract_date_from_url. cbn [bind]. rewrite E.
    rewrite (DateFacts.url_date_nonempty _ _ Hd). reflexivity.
  - intros Hno.
    assert (E : first_pattern url_patterns url = None).
    { destruct (first_pattern url_patterns url) as [date'|] eqn:E; [|reflexivity].
      exfalso. exact (Hno _ (UrlFacts.first_pattern_sound _ _ E)). }
    unfold extract_date_signals, extract_date_from_url. cbn [bind nonempty]. rewrite E.
    cbn [nonempty].
    split; [|split].
    + intros d Hs. rewrite Hs. cbn [bind].
      rewrite (DateFacts.extract_date_from_text_nonempty _ _ _ Hs). reflexivity.
    + intros Hs d Ht. rewrite Hs. cbn [bind nonempty]. rewrite Ht. cbn [bind].
      rewrite (DateFacts.extract_date_from_text_nonempty _ _ _ Ht). reflexivity.
    + intros Hs Ht. rewrite Hs. cbn [bind nonempty]. rewrite Ht. reflexivity.
Qed.

(** The precedence at work: a URL date against a conflicting snippet, then a
    snippet, a title and nothing under a URL without a date. *)
Lemma extract_date_signals_precedence_witness :
  (exists date, url_date "https://example.com/2026/01/24/some-article" date /\
     extract_date_signals Example.now
       (PStr "https://example.com/2026/01/24/some-article")
       (PStr "posted 3 days ago") (PStr "Updated 5 March 2025")
     = Ok (Some date, "high"))
  /\ extract_date_signals Example.now (PStr "https://example.com/some-article")
       (PStr "posted 3 days ago") (PStr "Updated 5 March 2025")
     = Ok (Some "2026-01-27", "med")
  /\ extract_date_signals Example.now (PStr "https://example.com/some-article")
       (PStr "no date here") (PStr "Updated 5 March 2025")
     = Ok (Some "2025-03-05", "low")
  /\ extract_date_signals Example.now (PStr "https://example.com/some-article")
       (PStr "no date here") (PStr "nor here")
     = Ok (None, "none").
Proof.
  split; [|split; [|split]].
  - destruct (proj1 (extract_date_signals_precedence Example.now
                       "https://example.com/2026/01/24/some-article" "" ""))
      as (date & Hd & H).
    + exists "2026-01-24".
      apply (url_date_slash _ "https://example.com" "2026" "01" "24" "some-article");
        [split; reflexivity | split; reflexivity | split; reflexivity | reflexivity].
    + exists date. split; [exact Hd | apply H].
  - apply (proj2 (extract_date_signals_precedence Example.now
                    "https://example.com/some-article" "posted 3 days ago"
                    "Updated 5 March 2025")).
    + apply UrlFacts.no_url_date. vm_compute. reflexivity.
    + vm_compute. reflexivity.
  - apply (proj2 (extract_date_signals_precedence Example.now
                    "https://example.com/some-article" "no date here"
                    "Updated 5 March 2025")).
    + apply UrlFacts.no_url_date. vm_compute. reflexivity.
    + vm_compute. reflexivity.
    + vm_compute. reflexivity.
  - apply (proj2 (extract_date_signals_precedence Example.now
                    "https://example.com/some-article" "no date here" "nor here")).
    + apply UrlFacts.no_url_date. vm_compute. reflexivity.
    + vm_compute. reflexivity.
    + vm_compute. reflexivity.
Defined.

(** C7. The long-form pattern resolves the day-first order, with the day
    padded to two digits, and does not resolve the month-first order:
    ["January 24, 2026"] yields no date. *)
Theorem long_form_date_month_first_is_not_resolved (now : datetime) :
  extract_date_from_text now (PStr "24 January 2026") = Ok (Some "2026-01-24")
  /\ extract_date_from_text now (PStr "5 march. 2026") = Ok (Some "2026-03-05")
  /\ extract_date_from_text now (PStr "January 24, 2026") = Ok None.
Proof. repeat split; vm_compute; reflexivity. Qed.

(** C3. With the clock at half past two in the afternoon of 30 January 2026,
    the candidate ["today"] is excluded from the window that ends on that
    day, and ["yesterday"] from the window that ends the day before: the
    relative words keep the time of day and are compared with a bound at
    midnight. *)
Theorem relative_date_on_upper_bound_is_excluded :
  is_date_in_range Example.now (PStr "today") "2026-01-01" "2026-01-30" = Ok false
  /\ is_date_in_range Example.now (PStr "yesterday") "2026-01-01" "2026-01-29" = Ok false
  /\ is_date_in_range Example.now (PStr "2026-01-30") "2026-01-01" "2026-01-30" = Ok true.
Proof. repeat split; vm_compute; reflexivity. Qed.

(** ** [mcp_client.py] *)

Module McpFacts.
Import McpClient.
Section Protocol.
Variable json_loads : string -> option pyval.
Variable json_dumps : pyval -> string.

Lemma nonblank_nonempty l : Str.strip l <> "" -> l <> "".
Proof. intros H ->. apply H. reflexivity. Qed.

Lemma str_in_dict_some k d v :
  dict_lookup k d = Some v -> str_in k (PDict d) = Ok true.
Proof. intros H. simpl. rewrite H. reflexivity. Qed.

Lemma str_in_dict_none k d :
  dict_lookup k d = None -> str_in k (PDict d) = Ok false.
Proof. intros H. simpl. rewrite H. reflexivity. Qed.

Lemma is_notification_dict d :
  notification d -> is_notification (PDict d) = Ok true.
Proof.
  intros [[m Hm] Hr]. unfold is_notification.
  rewrite (str_in_dict_some _ _ _ Hm), (str_in_dict_none _ _ Hr). reflexivity.
Qed.

(** A line that holds a notification is dropped, whatever is buffered. *)
Lemma handle_line_notification l buf :
  notification_line json_loads l ->
  handle_line json_loads (Str.strip l) buf = Ok (Continue buf).
Proof.
  intros (_ & d & Hd & Hn). unfold handle_line. rewrite Hd.
  rewrite (is_notification_dict _ Hn). reflexivity.
Qed.

Lemma handle_line_success l v :
  success_line json_loads l v ->
  exists d, unwrap_response (PDict d) = Ok v /\
    forall buf, handle_line json_loads (Str.strip l) buf = Ok (Break (PDict d)).
Proof.
  intros (_ & d & Hd & Hr & He). exists d.
  unfold handle_line, is_notification, is_answer, unwrap_response, subscript.
  rewrite Hd, (str_in_dict_some _ _ _ Hr), (str_in_dict_none _ _ He), Hr.
  split; [reflexivity|].
  intros buf. destruct (str_in "method" (PDict d)) as [[|]|] eqn:E; try reflexivity.
  discriminate.
Qed.

(** One turn of the loop on a notification: read on from the next line,
    with the buffer unchanged. *)
Lemma read_loop_notification clk tmo start eof l rest tk buf :
  (clk tk - start <= inject_Z tmo)%Q ->
  notification_line json_loads l ->
  read_loop json_loads clk tmo start eof (l :: rest) tk buf
  = read_loop json_loads clk tmo start eof rest (S tk) buf.
Proof.
  intros Ht Hn. simpl.
  apply Qle_bool_iff in Ht. rewrite Ht. cbn [negb].
  pose proof Hn as [Hs _].
  rewrite (eqb_false_of_ne _ _ (nonblank_nonempty _ Hs)), (eqb_false_of_ne _ _ Hs).
  rewrite (handle_line_notification _ _ Hn). reflexivity.
Qed.

Lemma read_loop_notes notes answer v :
  Forall (notification_line json_loads) notes ->
  success_line json_loads answer v ->
  exists d, unwrap_response (PDict d) = Ok v /\
    forall clk tmo start eof rest tk buf,
      (forall k, (k <= length notes)%nat ->
         (clk (tk + k)%nat - start <= inject_Z tmo)%Q) ->
      read_loop json_loads clk tmo start eof (notes ++ answer :: rest) tk buf
      = (rest, S (tk + length notes), Ok (PDict d)).
Proof.
  intros Hn Ha. destruct (handle_line_success _ _ Ha) as (d & Hu & Hd).
  exists d. split; [exact Hu|]. intros clk tmo start eof rest.
  induction Hn as [|l notes Hl Hn IH]; intros tk buf Ht.
  - simpl.
    specialize (Ht 0%nat (Nat.le_refl _)). rewrite Nat.add_0_r in Ht.
    apply Qle_bool_iff in Ht. rewrite Ht. cbn [negb].
    pose proof Ha as [Hs _].
    rewrite (eqb_false_of_ne _ _ (nonblank_nonempty _ Hs)), (eqb_false_of_ne _ _ Hs), Hd.
    rewrite Nat.add_0_r. reflexivity.
  - rewrite <- app_comm_cons, read_loop_notification; [| |exact Hl].
    2:{ specialize (Ht 0%nat (Nat.le_0_l _)). rewrite Nat.add_0_r in Ht. exact Ht. }
    rewrite IH.
    + simpl. repeat f_equal. lia.
    + intros k Hk. replace (S tk + k)%nat with (tk + S k)%nat by lia.
      apply Ht. simpl. lia.
Qed.

Lemma handle_line_break l buf r :
  handle_line json_loads l buf = Ok (Break r) -> exists text, json_loads text = Some r.
Proof.
  unfold handle_line. destruct (json_loads l) as [r1|] eqn:E1.
  - destruct (is_notification r1) as [[|]|]; cbn [bind]; try discriminate.
    destruct (is_answer r1) as [[|]|]; cbn [bind]; try discriminate.
    intros [= <-]. eauto.
  - destruct (json_loads (join newline (buf ++ [l]))) as [r2|] eqn:E2; try discriminate.
    destruct (is_notification r2) as [[|]|]; cbn [bind]; try discriminate.
    destruct (is_answer r2) as [[|]|]; cbn [bind]; try discriminate.
    intros [= <-]. eauto.
Qed.

(** The response that leaves the loop was parsed from the inbound text. *)
Lemma read_loop_response clk tmo start eof lines : forall tk buf rest tk' r,
  read_loop json_loads clk tmo start eof lines tk buf = (rest, tk', Ok r) ->
  exists text, json_loads text = Some r.
Proof.
  induction lines as [|l lines IH]; intros tk buf rest tk' r; simpl.
  - destruct (negb _); discriminate.
  - destruct (negb _); [discriminate|].
    destruct (String.eqb l ""); [discriminate|].
    destruct (String.eqb (Str.strip l) ""); [apply IH|].
    destruct (handle_line json_loads (Str.strip l) buf) as [[buf'|r']|] eqn:E.
    + apply IH.
    + intros [= <- <- <-]. exact (handle_line_break _ _ _ E).
    + discriminate.
Qed.

(** What is returned is the [result] member of a dictionary. *)
Lemma unwrap_response_ok r v :
  unwrap_response r = Ok v ->
  exists d, r = PDict d /\ dict_lookup "result" d = Some v.
Proof.
  unfold unwrap_response, subscript.
  destruct (str_in "error" r) as [[|]|]; cbn [bind]; try discriminate.
  - destruct r as [| | | | | |d]; try discriminate.
    destruct (dict_lookup "error" d) as [[| | | | | |?]|]; discriminate.
  - destruct (str_in "result" r) as [[|]|]; cbn [bind negb]; try discriminate.
    destruct r as [| | | | | |d]; try discriminate.
    destruct (dict_lookup "result" d) as [x|] eqn:E; [|discriminate].
    intros [= <-]. eauto.
Qed.

Lemma send_request_result w c method params w' c' v :
  _send_request json_loads json_dumps w c method params = (w', c', Ok v) ->
  exists text d, json_loads text = Some (PDict d) /\ dict_lookup "result" d = Some v.
Proof.
  unfold _send_request, _generate_request_id. cbn [process].
  destruct (process c) as [p|].
  - destruct (stdin_write _ p) as [p' [[]|[]]]; try discriminate.
    cbn [set_process process timeout].
    destruct (read_loop _ _ _ _ _ _ _ _) as [[rest tk] [r|]] eqn:E; cbn [bind];
      [|discriminate].
    intros [= _ _ Hu]. apply unwrap_response_ok in Hu as (d & -> & Hr).
    apply read_loop_response in E as [text Ht]. eauto.
  - cbn [process clock ticks sys_stdin timeout].
    destruct (read_loop _ _ _ _ _ _ _ _) as [[rest tk] [r|]] eqn:E; cbn [bind];
      [|discriminate].
    intros [= _ _ Hu]. apply unwrap_response_ok in Hu as (d & -> & Hr).
    apply read_loop_response in E as [text Ht]. eauto.
Qed.
End Protocol.
End McpFacts.


Import McpClient.

(** C1. A line that holds an envelope with a [method] key and no [result]
    key is dropped and the loop reads on, with its buffer unchanged; on a
    stream of such lines followed by a success response, [call_tool] returns
    the [result] member of that response (when the request can be written
    and the timeout does not run out); and whatever [call_tool] returns is
    the [result] member of an envelope that is not a notification. *)
Theorem notifications_are_discarded
    (json_loads : string -> option pyval) (json_dumps : pyval -> string) :
  (forall clk tmo start eof l more tk buf,
     (clk tk - start <= inject_Z tmo)%Q -> notification_line json_loads l ->
     read_loop json_loads clk tmo start eof (l :: more) tk buf
     = read_loop json_loads clk tmo start eof more (S tk) buf)
  /\ (forall w c tool_name arguments notes answer rest v,
        Forall (notification_line json_loads) notes ->
        success_line json_loads answer v ->
        inbound c w = notes ++ answer :: rest ->
        can_send c ->
        in_time w c (length notes) ->
        exists w' c',
          call_tool json_loads json_dumps w c tool_name arguments = (w', c', Ok v)
          /\ inbound c' w' = rest)
  /\ (forall w c tool_name arguments w' c' v,
        call_tool json_loads json_dumps w c tool_name arguments = (w', c', Ok v) ->
        exists text d, json_loads text = Some (PDict d)
          /\ dict_lookup "result" d = Some v /\ ~ notification d).
Proof.
  split; [|split].
  { intros. apply McpFacts.read_loop_notification; assumption. }
  - intros w c tool_name arguments notes answer rest v Hn Ha Hin Hsend Ht.
    destruct (McpFacts.read_loop_notes json_loads notes answer v Hn Ha) as (d & Hu & Hd).
    unfold call_tool, _send_request, _generate_request_id. cbn [process].
    unfold inbound, can_send in *.
    destruct (process c) as [p|] eqn:Hp.
    + destruct Hsend as [Hc Hb]. unfold stdin_write. rewrite Hc, Hb.
      cbn [set_process process set_stdin_written stdout_lines timeout].
      rewrite Hin, Hd by exact Ht. cbn [bind]. rewrite Hu.
      eexists _, _. split; reflexivity.
    + cbn [clock ticks sys_stdin timeout process]. rewrite Hin, Hd by exact Ht.
      cbn [bind]. rewrite Hu. eexists _, _. split; reflexivity.
  - intros w c tool_name arguments w' c' v H.
    apply McpFacts.send_request_result in H as (text & d & Ht & Hr).
    exists text, d. split; [exact Ht|]. split; [exact Hr|].
    intros [_ Hn]. congruence.
Qed.

(** A notification line, then the answer, on the standard input. *)
Lemma notifications_are_discarded_witness :
  exists w' c',
    call_tool Example.json_loads Example.json_dumps Example.world0 Example.client0
      "search_web" (PDict [("query", PStr "widget safety")])
    = (w', c', Ok (PInt 42))
    /\ inbound c' w' = [].
Proof.
  apply (proj1 (proj2 (notifications_are_discarded Example.json_loads Example.json_dumps))
           Example.world0 Example.client0 "search_web"
           (PDict [("query", PStr "widget safety")])
           [Example.notification_text +:+ newline] (Example.answer_text +:+ newline)
           [] (PInt 42)).
  - constructor; [|constructor]. split; [vm_compute; discriminate|].
    exists [("jsonrpc", PStr "2.0"); ("method", PStr "notifications/progress")].
    split; [vm_compute; reflexivity|]. split; [eexists; reflexivity | reflexivity].
  - split; [vm_compute; discriminate|].
    exists [("jsonrpc", PStr "2.0"); ("id", PInt 1); ("result", PInt 42)].
    split; [vm_compute; reflexivity|]. split; reflexivity.
  - reflexivity.
  - exact I.
  - intros k _. vm_compute. discriminate.
Defined.

(** [wait] raises nothing but [TimeoutExpired]. *)
Lemma wait_outcome p :
  (exists p' rc, wait p = (p', Ok rc)) \/ wait p = (p, Raise TimeoutExpired).
Proof.
  unfold wait. destruct (returncode p); [left; eauto|].
  destruct (lingers p && negb (killed p)); [right; reflexivity | left; eauto].
Qed.

(** C8. From every state of the client, [close] returns without raising,
    leaves the [process] field cleared, and a second [close] returns without
    raising and changes nothing. *)
Theorem close_never_raises_and_is_idempotent (c : client) :
  exists c' shut,
    close c = (c', shut, Ok tt)
    /\ process c' = None
    /\ close c' = (c', None, Ok tt).
Proof.
  unfold close at 1. destruct (process c) as [p|] eqn:Hp.
  - destruct (stdin_close p) as [p1 r1].
    destruct (wait_outcome p1) as [(p2 & rc & ->)| ->].
    + eexists _, _. split; [reflexivity|]. split; reflexivity.
    + eexists _, _. split; [reflexivity|]. split; reflexivity.
  - exists c, None. split; [reflexivity|]. split; [exact Hp|].
    unfold close. rewrite Hp. reflexivity.
Qed.

(** ** [hybrid_search.py] *)

Import ClaudeMcp HybridSearch.

Lemma collect3 (fr fx fw : result provider_result) :
  collect [("reddit", fr); ("x", fx); ("web", fw)] ∅
  = <["web" := entry fw]> (<["x" := entry fx]> (<["reddit" := entry fr]> ∅)).
Proof. destruct fr, fx, fw; reflexivity. Qed.

(** C2. Whatever the three futures give, the mapping has exactly the keys
    [reddit], [x] and [web]; the entry of a category is what its own worker
    returned, or [([], "error")] when its worker raised or timed out, and
    does not depend on the other two.  So it is for [search_all_hybrid] on
    its three workers. *)
Theorem fan_out_isolation :
  (forall fr fx fw : result provider_result,
     let results := collect [("reddit", fr); ("x", fx); ("web", fw)] ∅ in
     dom results = {[ "reddit"; "x"; "web" ]}
     /\ results !! "reddit" = Some (entry fr)
     /\ results !! "x" = Some (entry fx)
     /\ results !! "web" = Some (entry fw))
  /\ (forall env late topic from_date to_date config depth,
        let results := search_all_hybrid env late topic from_date to_date config depth in
        dom results = {[ "reddit"; "x"; "web" ]}
        /\ results !! "reddit" = Some (entry (future_result (late "reddit")
             (search_reddit_hybrid env topic from_date to_date config depth).2))
        /\ results !! "x" = Some (entry (future_result (late "x")
             (search_x_hybrid env topic from_date to_date config depth).2))
        /\ results !! "web" = Some (entry (future_result (late "web")
             (search_web_hybrid env topic from_date to_date config depth).2))).
Proof.
  assert (G : forall fr fx fw : result provider_result,
     let results := collect [("reddit", fr); ("x", fx); ("web", fw)] ∅ in
     dom results = {[ "reddit"; "x"; "web" ]}
     /\ results !! "reddit" = Some (entry fr)
     /\ results !! "x" = Some (entry fx)
     /\ results !! "web" = Some (entry fw)).
  { intros fr fx fw results. subst results. rewrite collect3.
    split; [|split; [|split]].
    - rewrite !dom_insert_L, dom_empty_L. set_solver.
    - rewrite !lookup_insert_ne by discriminate. apply lookup_insert_eq.
    - rewrite lookup_insert_ne by discriminate. apply lookup_insert_eq.
    - apply lookup_insert_eq. }
  split; [exact G|].
  intros env late topic from_date to_date config depth. apply G.
Qed.

Lemma should_use_ok env config :
  config_has_string_flag config -> exists b, should_use_claude_mcp env config = Ok b.
Proof.
  unfold config_has_string_flag, should_use_claude_mcp.
  destruct (config !! "USE_CLAUDE_MCP") as [[| | | |s| |]|]; simpl; try contradiction;
    intros _.
  - destruct (String.eqb (Str.lower s) "false"); [eauto|].
    destruct (String.eqb (Str.lower s) "true"); eauto.
  - eauto.
Qed.

(** When the wrapper is selected it reports itself available. *)
Lemma should_use_true_available env config :
  should_use_claude_mcp env config = Ok true ->
  _available (wrapper_init env config) = true.
Proof.
  unfold should_use_claude_mcp, wrapper_init, detect_mcp_tools. cbn [_available].
  destruct (default (PStr "") (config !! "USE_CLAUDE_MCP")); try discriminate.
  destruct (String.eqb _ "false"); [discriminate|].
  destruct (String.eqb _ "true").
  - intros [= ->]. reflexivity.
  - destruct (is_claude_environment env); [reflexivity | discriminate].
Qed.

Lemma hybrid_outcome env config :
  config_has_string_flag config ->
  returns_no_items env config
    match should_use_claude_mcp env config with
    | Raise e => ([], Raise e)
    | Ok false => ([], Ok ([], "none"))
    | Ok true =>
        match get_mcp_client env config with
        | Raise e => ([Logged "Claude MCP search failed"], Ok ([], "none"))
        | Ok mcp_client =>
            match is_available mcp_client with
            | Ok true => ([Invoked "is_available"], Ok ([], "claude_mcp"))
            | Ok false => ([Invoked "is_available"], Ok ([], "none"))
            | Raise e => ([Logged "Claude MCP search failed"], Ok ([], "none"))
            end
        end
    end.
Proof.
  intros H. destruct (should_use_ok env config H) as [b Hb].
  unfold get_mcp_client. rewrite Hb. cbn [bind]. destruct b.
  - cbn [is_available]. rewrite (should_use_true_available _ _ Hb).
    exists [Invoked "is_available"], "claude_mcp".
    split; [reflexivity|]. split; [auto|]. split; [tauto|].
    intros Hin. apply list_elem_of_singleton in Hin. discriminate.
  - exists [], "none". split; [reflexivity|]. split; [auto|].
    split; [rewrite Hb; split; intros; discriminate | apply not_elem_of_nil].
Qed.

(** C10. Amended: for a configuration in which [USE_CLAUDE_MCP] is not set
    or is a string, each of the three search functions returns, with an
    empty item list and the tag ["claude_mcp"] exactly when the wrapper is
    selected (it then reports itself available), else ["none"]; [search_web]
    is never invoked. *)
Theorem hybrid_searches_return_no_items env topic from_date to_date config depth :
  config_has_string_flag config ->
  returns_no_items env config (search_reddit_hybrid env topic from_date to_date config depth)
  /\ returns_no_items env config (search_x_hybrid env topic from_date to_date config depth)
  /\ returns_no_items env config (search_web_hybrid env topic from_date to_date config depth).
Proof.
  intros H. repeat split; apply hybrid_outcome; exact H.
Qed.

(** The three functions on an empty configuration, inside the host
    environment. *)
Lemma hybrid_searches_return_no_items_witness :
  returns_no_items {[ "CLAUDE_CODE" := "1" ]} ∅
    (search_reddit_hybrid {[ "CLAUDE_CODE" := "1" ]} "widget safety"
       "2026-01-01" "2026-01-30" ∅ "default")
  /\ returns_no_items {[ "CLAUDE_CODE" := "1" ]} ∅
       (search_x_hybrid {[ "CLAUDE_CODE" := "1" ]} "widget safety"
          "2026-01-01" "2026-01-30" ∅ "default")
  /\ returns_no_items {[ "CLAUDE_CODE" := "1" ]} ∅
       (search_web_hybrid {[ "CLAUDE_CODE" := "1" ]} "widget safety"
          "2026-01-01" "2026-01-30" ∅ "default").
Proof.
  apply (hybrid_searches_return_no_items {[ "CLAUDE_CODE" := "1" ]} "widget safety"
           "2026-01-01" "2026-01-30" ∅ "default").
  vm_compute. exact I.
Defined.

(** C10, as stated, fails: a configuration whose [USE_CLAUDE_MCP] is [None]
    makes each of the three functions raise [AttributeError]. *)
Lemma hybrid_search_raises_on_non_string_flag :
  search_reddit_hybrid ∅ "widget safety" "2026-01-01" "2026-01-30"
    {[ "USE_CLAUDE_MCP" := PNone ]} "default" = ([], Raise AttributeError)
  /\ search_x_hybrid ∅ "widget safety" "2026-01-01" "2026-01-30"
       {[ "USE_CLAUDE_MCP" := PNone ]} "default" = ([], Raise AttributeError)
  /\ search_web_hybrid ∅ "widget safety" "2026-01-01" "2026-01-30"
       {[ "USE_CLAUDE_MCP" := PNone ]} "default" = ([], Raise AttributeError).
Proof. repeat split; vm_compute; reflexivity. Qed.

(** ** The clamp of the relevance *)

Module FloatFacts.
Import Float.

Lemma Qle_bool_false x y : Qle_bool x y = false -> (y < x)%Q.
Proof.
  intros H. apply Qnot_le_lt. intros Hle. apply Qle_bool_iff in Hle. congruence.
Qed.

(** [min(1.0, max(0.0, f))] lies between 0.0 and 1.0, also for NaN and
    the infinities. *)
Lemma clamp_in_unit_interval f : in_unit_interval (min one (max zero f)).
Proof.
  destruct f as [|[|]|q]; try (vm_compute; split; discriminate).
  unfold max, min, zero, one, lt.
  destruct (Qle_bool q 0) eqn:E0; cbn [negb].
  - change (Qle_bool 1 0) with false. cbn [negb]. simpl. lra.
  - apply Qle_bool_false in E0.
    destruct (Qle_bool 1 q) eqn:E1; cbn [negb]; simpl.
    + lra.
    + apply Qle_bool_false in E1. lra.
Qed.
End FloatFacts.

Module OpenaiFacts.
Import OpenaiReddit.

Section Clean.
Variable repr_other : pyval -> string.
Variable float_of_string : string -> option pyfloat.
Variable float_of_int : Z -> option pyfloat.

Lemma clean_item_fields i d url it :
  clean_item repr_other float_of_string float_of_int i d url = Ok it ->
  it !! "date_confidence" = None
  /\ exists f, it !! "relevance" = Some (PFloat f) /\ Float.in_unit_interval f.
Proof.
  unfold clean_item.
  destruct (py_float _ _ _) as [rel|]; cbn [bind]; [|discriminate].
  intros [= <-]. split; [reflexivity|].
  eexists. split; [reflexivity|]. apply FloatFacts.clamp_in_unit_interval.
Qed.

Lemma clean_items_forall (P : item -> Prop) :
  (forall i d url it,
     clean_item repr_other float_of_string float_of_int i d url = Ok it -> P it) ->
  forall items i out,
    clean_items repr_other float_of_string float_of_int i items = Ok out ->
    Forall P out.
Proof.
  intros HP. induction items as [|x rest IH]; intros i out H; simpl in H.
  - injection H as <-. constructor.
  - destruct x as [| | | | | |d]; eauto.
    match type of H with bind ?c _ = _ => destruct c as [[|]|] end;
      cbn [bind] in H; try discriminate; eauto.
    revert H.
    destruct (clean_item _ _ _ _ _ _) as [it|] eqn:Ei; cbn [bind]; [|discriminate].
    destruct (clean_items _ _ _ _ _) as [out'|] eqn:Er; cbn [bind]; [|discriminate].
    intros [= <-]. constructor; eauto.
Qed.
End Clean.
End OpenaiFacts.

(** ** [searxng.py] *)

Module SearxngFacts.
Import Searxng.

Section Parse.
Variable py_hash : string -> Z.
Variable clock : nat -> datetime.
Variables from_date to_date : string.

Lemma result_date_cases i d url snippet title date_str c :
  result_date clock i d url snippet title = Ok (date_str, c) ->
  (date_str = PNone /\ c = "none") \/
  (date_str <> PNone /\ (c = "high" \/ c = "med" \/ c = "low")).
Proof.
  unfold result_date.
  destruct (truthy (py_or _ _)) eqn:T.
  - intros [= <- <-]. right. split; [|auto]. intros E. rewrite E in T. discriminate.
  - destruct (extract_date_signals _ _ _ _) as [[ds dc]|] eqn:E; cbn [bind]; [|discriminate].
    intros [= <- <-]. apply DateFacts.extract_date_signals_cases in E as [[-> ->]|(s & -> & _ & H)].
    + left. split; reflexivity.
    + right. split; [discriminate | assumption].
Qed.

Lemma pairing_intro (it : item) date_str c :
  ((date_str = PNone /\ c = "none") \/
   (date_str <> PNone /\ (c = "high" \/ c = "med" \/ c = "low"))) ->
  it !! "date" = Some date_str -> it !! "date_confidence" = Some (PStr c) ->
  date_pairing it.
Proof.
  intros H Hd Hc. unfold date_pairing, date_absent. rewrite Hd, Hc.
  destruct H as [[-> ->]|[Hn [->|[->| ->]]]].
  - split; auto.
  - split; [discriminate | intros [|]; congruence].
  - split; [discriminate | intros [|]; congruence].
  - split; [discriminate | intros [|]; congruence].
Qed.

Lemma reddit_item_pairing i r it :
  reddit_item py_hash clock from_date to_date i r = Ok (Some it) -> date_pairing it.
Proof.
  unfold reddit_item. destruct r as [| | | | | |d]; try discriminate.
  destruct (str_in "reddit.com" _) as [[|]|]; cbn [bind negb]; try discriminate.
  destruct (any_in _ _) as [[|]|]; cbn [bind]; try discriminate.
  destruct (extract_subreddit_from_url _) as [sub|]; cbn [bind]; try discriminate.
  destruct (String.eqb sub ""); try discriminate.
  destruct (result_date _ _ _ _ _ _) as [[ds dc]|] eqn:E; cbn [bind]; try discriminate.
  destruct (out_of_range _ _ _ _ _) as [[|]|]; cbn [bind]; try discriminate.
  destruct (slice200 _) as [why|]; cbn [bind]; try discriminate.
  intros [= <-]. apply result_date_cases in E.
  apply (pairing_intro _ _ _ E); reflexivity.
Qed.

Lemma x_item_pairing i r it :
  x_item py_hash clock from_date to_date i r = Ok (Some it) -> date_pairing it.
Proof.
  unfold x_item. destruct r as [| | | | | |d]; try discriminate.
  destruct (str_in "x.com" _) as [[|]|]; cbn [bind negb]; try discriminate.
  all: try (destruct (str_in "twitter.com" _) as [[|]|]; cbn [bind negb]; try discriminate).
  all: destruct (extract_author_from_x_url _) as [a|]; cbn [bind]; try discriminate.
  all: destruct (result_date _ _ _ _ _ _) as [[ds dc]|] eqn:E; cbn [bind]; try discriminate.
  all: destruct (out_of_range _ _ _ _ _) as [[|]|]; cbn [bind]; try discriminate.
  all: intros [= <-]; apply result_date_cases in E.
  all: apply (pairing_intro _ _ _ E); reflexivity.
Qed.

Lemma web_item_pairing i r it :
  web_item py_hash clock from_date to_date i r = Ok (Some it) -> date_pairing it.
Proof.
  unfold web_item. destruct r as [| | | | | |d]; try discriminate.
  destruct (_extract_domain_from_url _) as [a|]; cbn [bind]; try discriminate.
  destruct (result_date _ _ _ _ _ _) as [[ds dc]|] eqn:E; cbn [bind]; try discriminate.
  destruct (out_of_range _ _ _ _ _) as [[|]|]; cbn [bind]; try discriminate.
  intros [= <-]; apply result_date_cases in E.
  apply (pairing_intro _ _ _ E); reflexivity.
Qed.

Lemma parse_loop_forall (P : item -> Prop) body :
  (forall i r it, body i r = Ok (Some it) -> P it) ->
  forall results i items, parse_loop body i results = Ok items -> Forall P items.
Proof.
  intros Hb. induction results as [|r rest IH]; intros i items H; simpl in H.
  - injection H as <-. constructor.
  - destruct (body i r) as [o|] eqn:E; cbn [bind] in H; [|discriminate].
    destruct (parse_loop body (S i) rest) as [its|] eqn:E2; cbn [bind] in H; [|discriminate].
    injection H as <-. specialize (IH _ _ E2).
    destruct o as [it|]; [constructor; eauto | assumption].
Qed.

Lemma parse_response_forall (P : item -> Prop) body :
  (forall i r it, body i r = Ok (Some it) -> P it) ->
  forall response items, parse_response body response = Ok items -> Forall P items.
Proof.
  intros Hb response items. unfold parse_response.
  destruct (bool_decide _); [intros [= <-]; constructor|].
  destruct (iterate _) as [results|]; cbn [bind]; [|discriminate].
  apply parse_loop_forall. assumption.
Qed.
End Parse.
End SearxngFacts.

(** ** [apply_date_detection] *)

Module ApplyFacts.

Lemma pairing_of_cases (it : item) (d : option string) (c : string) :
((d = None /\ c = "none") \/
 (exists s, d = Some s /\ s <> "" /\ (c = "high" \/ c = "med" \/ c = "low"))) ->
it !! "date" = Some (opt_str d) -> it !! "date_confidence" = Some (PStr c) ->
date_pairing it.
Proof.
intros H Hd Hc. unfold date_pairing, date_absent. rewrite Hd, Hc.
destruct H as [[-> ->]|(s & -> & _ & [->| [->| ->]])]; simpl;
  (split; [intros [=] | intros [|]; discriminate]) || (split; auto).
Qed.

Section Apply.
Variable clock : nat -> datetime.
Variables from_date to_date : string.

Lemma deref_insert_eq (h : gmap nat item) l it : deref (<[l := it]> h) l = it.
Proof. unfold deref. rewrite lookup_insert_eq. reflexivity. Qed.

Lemma deref_insert_ne (h : gmap nat item) l l' it :
l <> l' -> deref (<[l := it]> h) l' = deref h l'.
Proof. intros. unfold deref. rewrite lookup_insert_ne by assumption. reflexivity. Qed.

Lemma same_but_dates_refl d : same_but_dates d d.
Proof. intros k _ _. reflexivity. Qed.

Lemma same_but_dates_trans a b c :
same_but_dates a b -> same_but_dates b c -> same_but_dates a c.
Proof. intros H1 H2 k ? ?. rewrite H2, H1 by assumption. reflexivity. Qed.

Lemma same_but_dates_update (h : gmap nat item) ref (dv cv : pyval) l :
same_but_dates (deref h l)
  (deref (<[ref := <["date_confidence" := cv]> (<["date" := dv]> (deref h ref))]> h) l).
Proof.
destruct (decide (ref = l)) as [->|Hne].
- rewrite deref_insert_eq. intros k ? ?.
  rewrite !lookup_insert_ne by congruence. reflexivity.
- rewrite deref_insert_ne by assumption. apply same_but_dates_refl.
Qed.

(** The loop rewrites only the two date fields, only of the items it is
  given, and returns a sub-list of them after [acc]. *)
Lemma apply_loop_frame items : forall i (h : gmap nat item) acc h' r,
apply_loop clock from_date to_date i h items acc = (h', r) ->
(forall l, same_but_dates (deref h l) (deref h' l))
/\ (forall l, l ∉ items -> h' !! l = h !! l)
/\ (forall out, r = Ok out -> exists sel, out = acc ++ sel /\ sublist sel items).
Proof.
induction items as [|ref rest IH]; intros i h acc h' r H; simpl in H.
- injection H as <- <-. split; [intros; apply same_but_dates_refl|].
  split; [reflexivity|]. intros out [= <-]. exists []. rewrite app_nil_r.
  split; [reflexivity | constructor].
- destruct (extract_date_signals _ _ _ _) as [[date_str confidence]|e].
  2:{ injection H as <- <-. split; [intros; apply same_but_dates_refl|].
      split; [reflexivity|]. discriminate. }
  set (h1 := <[ref := _]> h) in H.
  assert (F1 : forall l, same_but_dates (deref h l) (deref h1 l))
    by (intros l; apply same_but_dates_update).
  assert (F2 : forall l, l ∉ ref :: rest -> h1 !! l = h !! l).
  { intros l Hl. subst h1. apply lookup_insert_ne. intros ->. apply Hl. left. }
  assert (Step : forall acc', apply_loop clock from_date to_date (S i) h1 rest acc' = (h', r) ->
            (exists sel, acc' = acc ++ sel /\ sublist sel [ref]) ->
            (forall l, same_but_dates (deref h l) (deref h' l))
            /\ (forall l, l ∉ ref :: rest -> h' !! l = h !! l)
            /\ (forall out, r = Ok out -> exists sel, out = acc ++ sel /\ sublist sel (ref :: rest))).
  { intros acc' Hrec (sel0 & -> & Hsel0).
    destruct (IH _ _ _ _ _ Hrec) as (G1 & G2 & G3).
    split; [intros l; eapply same_but_dates_trans; [apply F1 | apply G1]|].
    split.
    { intros l Hl. rewrite G2, F2; [reflexivity | assumption |].
      intros ?. apply Hl. right. assumption. }
    intros out Hout. destruct (G3 _ Hout) as (sel & -> & Hsel).
    exists (sel0 ++ sel). rewrite app_assoc. split; [reflexivity|].
    change (ref :: rest) with ([ref] ++ rest). apply sublist_app; assumption. }
  destruct (nonempty date_str).
  + destruct (is_date_in_range _ _ _ _) as [[|]|e].
    * apply (Step _ H). exists [ref]. split; [reflexivity | reflexivity].
    * apply (Step _ H). exists []. rewrite app_nil_r. split; [reflexivity|].
      apply sublist_nil_l.
    * injection H as <- <-. split; [exact F1|]. split; [exact F2 | discriminate].
  + apply (Step _ H). exists [ref]. split; reflexivity.
Qed.

(** After a run that returns, every item of the list carries the pairing. *)
Lemma apply_loop_pairing items : forall i (h : gmap nat item) acc h' out,
apply_loop clock from_date to_date i h items acc = (h', Ok out) ->
forall l, l ∈ items -> date_pairing (deref h' l).
Proof.
induction items as [|ref rest IH]; intros i h acc h' out H l Hl.
- inversion Hl.
- simpl in H.
  destruct (extract_date_signals _ _ _ _) as [[date_str confidence]|e] eqn:E;
    [|discriminate].
  apply DateFacts.extract_date_signals_cases in E.
  set (it1 := <["date_confidence" := _]> _) in H.
  set (h1 := <[ref := it1]> h) in H.
  assert (P1 : date_pairing (deref h1 ref)).
  { subst h1. rewrite deref_insert_eq. apply (pairing_of_cases _ _ _ E); subst it1.
    - rewrite lookup_insert_ne by discriminate. apply lookup_insert_eq.
    - apply lookup_insert_eq. }
  assert (Step : forall acc', apply_loop clock from_date to_date (S i) h1 rest acc' = (h', Ok out) ->
            date_pairing (deref h' l)).
  { intros acc' Hrec. destruct (decide (l ∈ rest)) as [Hin|Hnin].
    - exact (IH _ _ _ _ _ Hrec l Hin).
    - assert (l = ref) as -> by (apply elem_of_cons in Hl as [|]; [assumption | contradiction]).
      destruct (apply_loop_frame _ _ _ _ _ _ Hrec) as (_ & G2 & _).
      unfold deref in *. rewrite (G2 _ Hnin). exact P1. }
  destruct (nonempty date_str).
  + destruct (is_date_in_range _ _ _ _) as [[|]|e]; [eauto | eauto | discriminate].
  + eauto.
Qed.
End Apply.

End ApplyFacts.

(** ** The adapters *)

(** The relevance that [openai_reddit.parse_reddit_response] stores lies
    between 0.0 and 1.0, and its items have no [date_confidence] key. *)
Lemma openai_items_fields repr_other float_of_string float_of_int i items out :
  OpenaiReddit.clean_items repr_other float_of_string float_of_int i items = Ok out ->
  Forall (fun it : item =>
            it !! "date_confidence" = None
            /\ exists f, it !! "relevance" = Some (PFloat f) /\ Float.in_unit_interval f)
         out.
Proof.
  apply OpenaiFacts.clean_items_forall. intros ? ? ? ?.
  apply OpenaiFacts.clean_item_fields.
Qed.

(** C4. The SearXNG adapter copies the [score] of a result into the
    [relevance] of its item as it is: a score of 5.0 gives a relevance of
    5.0, outside the interval from 0.0 to 1.0. *)
Theorem searxng_relevance_is_not_clamped (py_hash : string -> Z)
    (clock : nat -> datetime) :
  exists it,
    Searxng.parse_reddit_response py_hash clock "2026-01-01" "2026-01-30"
      Example.searxng_response = Ok [it]
    /\ it !! "relevance" = Some (PFloat (FFin 5))
    /\ ~ Float.in_unit_interval (FFin 5).
Proof.
  eexists. split; [vm_compute; reflexivity|]. split; [reflexivity|].
  intros [_ H]. apply H. reflexivity.
Qed.

(** C5, as stated, fails: an item built by
    [openai_reddit.parse_reddit_response] without a date has no
    [date_confidence] at all, so that its date is absent while its
    confidence is not ["none"]. *)
Lemma openai_item_breaks_date_pairing :
  exists it,
    OpenaiReddit.clean_items (fun _ => "") (fun _ => None) (fun _ => None) 0
      Example.openai_items = Ok [it]
    /\ date_absent it
    /\ it !! "date_confidence" = None
    /\ ~ date_pairing it.
Proof.
  eexists. split; [vm_compute; reflexivity|].
  split; [right; reflexivity|]. split; [reflexivity|].
  intros [_ H]. discriminate H. right. reflexivity.
Qed.

(** C5. Amended: [extract_date_signals] returns [(None, "none")] or a
    non-empty string with ["high"], ["med"] or ["low"]; every item built by
    the three SearXNG parsers, and every item that a returning
    [apply_date_detection] was given, has [date_confidence == "none"] if and
    only if its date is absent; the items of
    [openai_reddit.parse_reddit_response] carry no [date_confidence]. *)
Theorem date_confidence_pairing :
  (forall now url snippet title d c,
     extract_date_signals now url snippet title = Ok (d, c) ->
     (d = None /\ c = "none") \/
     (exists s, d = Some s /\ s <> "" /\ (c = "high" \/ c = "med" \/ c = "low")))
  /\ (forall py_hash clock from_date to_date response items,
        Searxng.parse_reddit_response py_hash clock from_date to_date response = Ok items
        \/ Searxng.parse_x_response py_hash clock from_date to_date response = Ok items
        \/ Searxng.parse_web_response py_hash clock from_date to_date response = Ok items ->
        Forall date_pairing items)
  /\ (forall clock (h : gmap nat item) items from_date to_date item_type h' out,
        apply_date_detection clock h items from_date to_date item_type = (h', Ok out) ->
        forall l, l ∈ items -> date_pairing (deref h' l))
  /\ (forall repr_other float_of_string float_of_int items out,
        OpenaiReddit.clean_items repr_other float_of_string float_of_int 0 items = Ok out ->
        Forall (fun it : item => it !! "date_confidence" = None) out).
Proof.
  split; [|split; [|split]].
  - intros. eapply DateFacts.extract_date_signals_cases. eassumption.
  - intros py_hash clock from_date to_date response items [H|[H|H]];
      revert H; apply SearxngFacts.parse_response_forall.
    + apply SearxngFacts.reddit_item_pairing.
    + apply SearxngFacts.x_item_pairing.
    + apply SearxngFacts.web_item_pairing.
  - intros clock h items from_date to_date item_type h' out H.
    exact (ApplyFacts.apply_loop_pairing _ _ _ _ _ _ _ _ _ H).
  - intros repr_other float_of_string float_of_int items out H.
    apply openai_items_fields in H. eapply Forall_impl; [exact H|].
    intros it [E _]. exact E.
Qed.

(** The pairing on a SearXNG item and on the item of the example store. *)
Lemma date_confidence_pairing_witness :
  (exists it,
     Searxng.parse_reddit_response (fun _ => 7) (fun _ => Example.now)
       "2026-01-01" "2026-01-30" Example.searxng_response = Ok [it]
     /\ date_pairing it)
  /\ (exists h',
        apply_date_detection (fun _ => Example.now) Example.store0 [0%nat]
          "2026-01-01" "2026-01-30" "reddit" = (h', Ok [0%nat])
        /\ date_pairing (deref h' 0%nat)).
Proof.
  split.
  - eexists. split; [vm_compute; reflexivity|].
    refine (Forall_inv
      (proj1 (proj2 date_confidence_pairing) (fun _ => 7) (fun _ => Example.now)
         "2026-01-01" "2026-01-30" Example.searxng_response _ (or_introl _))).
    vm_compute. reflexivity.
  - eexists. split; [vm_compute; reflexivity|].
    refine (proj1 (proj2 (proj2 date_confidence_pairing)) (fun _ => Example.now)
              Example.store0 [0%nat] "2026-01-01" "2026-01-30" "reddit" _ [0%nat] _
              0%nat _).
    + vm_compute. reflexivity.
    + apply list_elem_of_here.
Defined.

(** C9, as stated, fails: [apply_date_detection] overwrites the [date] of
    the item it is given.  The item of the example store is dated
    2026-01-15 by its adapter; its URL, title and text hold no date, and it
    comes back with [date] set to [None]. *)
Lemma apply_date_detection_overwrites_date :
  exists h',
    apply_date_detection (fun _ => Example.now) Example.store0 [0%nat]
      "2026-01-01" "2026-01-30" "reddit" = (h', Ok [0%nat])
    /\ deref Example.store0 0%nat !! "date" = Some (PStr "2026-01-15")
    /\ deref h' 0%nat !! "date" = Some PNone
    /\ deref Example.store0 0%nat !! "date_confidence" = None
    /\ deref h' 0%nat !! "date_confidence" = Some (PStr "none").
Proof.
  eexists. split; [vm_compute; reflexivity|]. repeat split; reflexivity.
Qed.

(** C9. Amended: [apply_date_detection] writes, in place, the fields [date]
    and [date_confidence] of items it is given and nothing else: every other
    field of every item is as before, an item that is not in the list is
    untouched, and the list returned is a sub-list of the list given. *)
Theorem apply_date_detection_frame (clock : nat -> datetime) (h : gmap nat item)
    (items : list nat) (from_date to_date item_type : string)
    (h' : gmap nat item) (r : result (list nat)) :
  apply_date_detection clock h items from_date to_date item_type = (h', r) ->
  (forall l k, k <> "date" -> k <> "date_confidence" ->
     deref h' l !! k = deref h l !! k)
  /\ (forall l, l ∉ items -> h' !! l = h !! l)
  /\ (forall out, r = Ok out -> sublist out items).
Proof.
  intros H. destruct (ApplyFacts.apply_loop_frame _ _ _ _ _ _ _ _ _ H) as (F1 & F2 & F3).
  split; [intros l k; apply F1|]. split; [exact F2|].
  intros out Hr. destruct (F3 _ Hr) as (sel & -> & Hs). exact Hs.
Qed.

(** The frame on the example store: the URL and the title of the item are
    kept, and the item is selected. *)
Lemma apply_date_detection_frame_witness :
  Example.detected.2 = Ok [0%nat]
  /\ deref Example.detected.1 0%nat !! "url" = deref Example.store0 0%nat !! "url"
  /\ deref Example.detected.1 0%nat !! "title" = deref Example.store0 0%nat !! "title"
  /\ Example.detected.1 !! 1%nat = Example.store0 !! 1%nat
  /\ sublist [0%nat] [0%nat].
Proof.
  destruct (apply_date_detection_frame (fun _ => Example.now) Example.store0 [0%nat]
              "2026-01-01" "2026-01-30" "reddit" Example.detected.1 Example.detected.2)
    as (F1 & F2 & F3).
  - vm_compute. reflexivity.
  - split; [vm_compute; reflexivity|].
    split; [apply F1; discriminate|]. split; [apply F1; discriminate|].
    split; [apply F2; intros H; apply list_elem_of_singleton in H; discriminate|].
    apply F3. vm_compute. reflexivity.
Defined.
